(** * Task CRUD handlers of the autograding API (routers/tasks.py)

    A shallow embedding of the four handlers [read_task], [create_task],
    [update_task] and [delete_task] over a model of the file-backed storage
    engine they call, followed by the properties of the task repository. *)

From Stdlib Require Import ZArith Lia.
From stdpp Require Import base option list gmap strings.

Local Open Scope Z_scope.

(** ** Data model *)

(** Modelled from the spec: the element type of the [input] and [output]
    fixture sequences (schemas/tasks.py is not part of the sources). *)
Inductive Value :=
  | VInt (n : Z)
  | VStr (s : string).

(** Modelled from the spec: one entry of the theme index, [{id, count}]
    (the handlers read and write its ["count"] only). *)
Record Theme := mkTheme {
  th_id : Z;
  th_count : Z
}.

(** The dictionary stored as the [task_info] resource: the keys
    [("id", "theme_id", "title", "description")] of [create_task]. *)
Record TaskInfo := mkTaskInfo {
  i_id : Z;
  i_theme_id : Z;
  i_title : string;
  i_description : string
}.

(** Modelled from the spec: [schemas.tasks.TaskCreate], the payload of a
    creation (schemas/tasks.py is not part of the sources). *)
Record TaskCreate := mkTaskCreate {
  c_title : string;
  c_description : string;
  c_input : list Value;
  c_output : list Value
}.

(** Modelled from the spec: [schemas.tasks.Task], the payload with the
    identifiers [create_task] passes to it. *)
Record Task := mkTask {
  t_id : Z;
  t_theme_id : Z;
  t_title : string;
  t_description : string;
  t_input : list Value;
  t_output : list Value
}.

(** Modelled from the spec: [schemas.tasks.TaskUpdate], the body of an
    update, of which every field is optional ([None] when the request does
    not carry it). It is also the response model of [update_task], and the
    task [update_task] returns is taken as the dictionary it is built
    from. *)
Record TaskUpdate := mkTaskUpdate {
  u_id : option Z;
  u_theme_id : option Z;
  u_title : option string;
  u_description : option string;
  u_input : option (list Value);
  u_output : option (list Value)
}.

(** The content of an uploaded file, as [await code.read()] returns it. *)
Definition UploadFile : Type := list Byte.byte.

(** [fastapi.responses.Response]. *)
Record Response := mkResponse { status_code : Z }.

Definition HTTP_204_NO_CONTENT : Z := 204.

(** Modelled from the spec: the three error models of [schemas.errors]
    (not part of the sources), whose [.error] is the detail of an
    [HTTPException]. *)
Inductive ErrorModel := NotFoundTheme | NotFoundTask | EmptyRequest.

(** The Python exceptions the handlers raise or let through. *)
Inductive exn :=
  | IndexError
  | FileNotFoundError
  | AttributeError
  | HTTPException (status : Z) (detail : ErrorModel).

(** ** The storage *)

(** The four resource kinds of a task: the tuple [files] of [delete_task]. *)
Inductive task_kind := task_info | task_input | task_output | task_code.

Definition content (k : task_kind) : Type :=
  match k with
  | task_info => TaskInfo
  | task_input => list Value
  | task_output => list Value
  | task_code => list Byte.byte
  end.

(** A task resource is addressed by [(theme_id, task_id)]. *)
Abbreviation key := (Z * Z)%type.

Record Storage := mkStorage {
  theme_index : list Theme;
  infos : gmap key TaskInfo;
  inputs : gmap key (list Value);
  outputs : gmap key (list Value);
  codes : gmap key (list Byte.byte)
}.

Definition files (k : task_kind) (s : Storage) : gmap key (content k) :=
  match k with
  | task_info => infos s
  | task_input => inputs s
  | task_output => outputs s
  | task_code => codes s
  end.

Definition set_files (k : task_kind) : gmap key (content k) → Storage → Storage :=
  match k with
  | task_info => λ m s, mkStorage (theme_index s) m (inputs s) (outputs s) (codes s)
  | task_input => λ m s, mkStorage (theme_index s) (infos s) m (outputs s) (codes s)
  | task_output => λ m s, mkStorage (theme_index s) (infos s) (inputs s) m (codes s)
  | task_code => λ m s, mkStorage (theme_index s) (infos s) (inputs s) (outputs s) m
  end.

Definition set_theme_index (l : list Theme) (s : Storage) : Storage :=
  mkStorage l (infos s) (inputs s) (outputs s) (codes s).

(** The calls made to the storage engine, in the order they are made. *)
Inductive op := Open | Save | Remove.

Inductive resource := TaskFile (k : task_kind) | ThemeIndex.

Record Call := mkCall {
  call_op : op;
  call_res : resource;
  call_theme : option Z;
  call_task : option Z
}.

Record World := mkWorld {
  store : Storage;
  calls : list Call
}.

(** ** Handlers as state transformers that may raise *)

Inductive result (A : Type) :=
  | Return (a : A)
  | Raise (e : exn).
Arguments Return {A} a.
Arguments Raise {A} e.

Definition M (A : Type) : Type := World → result A * World.

Definition ret {A} (a : A) : M A := λ w, (Return a, w).

Definition raise {A} (e : exn) : M A := λ w, (Raise e, w).

Definition bind {A B} (m : M A) (f : A → M B) : M B :=
  λ w, match m w with
       | (Return a, w') => f a w'
       | (Raise e, w') => (Raise e, w')
       end.

Notation "x <- m ;; k" := (bind m (λ x, k))
  (at level 100, m at next level, right associativity).
Notation "m ;; k" := (bind m (λ _, k))
  (at level 100, right associativity).

(** [try: body / except ...: handler / else: orelse]. An exception raised
    by [orelse] or by a handler is not caught by this statement. *)
Definition try_except {A B} (body : M A) (handler : exn → option (M B))
    (orelse : A → M B) : M B :=
  λ w, match body w with
       | (Return a, w') => orelse a w'
       | (Raise e, w') =>
           match handler e with
           | Some h => h w'
           | None => (Raise e, w')
           end
       end.

(** [for x in l: body]. *)
Fixpoint for_each {A} (l : list A) (body : A → M unit) : M unit :=
  match l with
  | [] => ret tt
  | x :: l' => body x ;; for_each l' body
  end.

(** ** Python list indexing *)

(** The position a Python index [i] denotes in a list of length [n]:
    negative indices count from the end, anything else out of
    [-n .. n-1] is an [IndexError]. *)
Definition py_pos (n : nat) (i : Z) : option nat :=
  if 0 <=? i then
    if i <? Z.of_nat n then Some (Z.to_nat i) else None
  else
    if - Z.of_nat n <=? i then Some (Z.to_nat (Z.of_nat n + i)) else None.

(** [l[i]]. *)
Definition py_index {A} (l : list A) (i : Z) : option A :=
  p ← py_pos (length l) i; l !! p.

(** [l[i] = x]. *)
Definition py_setitem {A} (l : list A) (i : Z) (x : A) : option (list A) :=
  p ← py_pos (length l) i; Some (<[p := x]> l).

(** ** Storage engine *)

Definition log (c : Call) : M unit :=
  λ w, (Return tt, mkWorld (store w) (calls w ++ [c])).

Definition get_store : M Storage := λ w, (Return (store w), w).

Definition put_store (s : Storage) : M unit :=
  λ w, (Return tt, mkWorld s (calls w)).

(** Modelled from the spec: [FileUtils] (utilities/file_scripts.py is not
    part of the sources). The location of a resource is derived from the
    theme entry at position [theme_id] of the theme index, so that a
    [theme_id] out of range shows as an out-of-range lookup of that list,
    the [IndexError] the handlers catch around reads, writes and removals
    alike. *)
Definition get_filepath (theme_id : option Z) : M unit :=
  match theme_id with
  | None => ret tt
  | Some t =>
      s <- get_store ;;
      match py_index (theme_index s) t with
      | Some _ => ret tt
      | None => raise IndexError
      end
  end.

(** Modelled from the spec: [FileUtils.open_file] on a task resource
    (read_record): the stored content, [IndexError] when the theme index has
    no entry for [theme_id], [FileNotFoundError] when the theme exists and
    the resource is absent. *)
Definition open_file (k : task_kind) (theme_id task_id : Z) : M (content k) :=
  log (mkCall Open (TaskFile k) (Some theme_id) (Some task_id)) ;;
  get_filepath (Some theme_id) ;;
  s <- get_store ;;
  match files k s !! (theme_id, task_id) with
  | Some c => ret c
  | None => raise FileNotFoundError
  end.

(** Modelled from the spec: [FileUtils.open_file_values]
    (read_sequence_values): the contract of [open_file], for the fixture
    kinds. *)
Definition open_file_values (k : task_kind) (theme_id task_id : Z) : M (content k) :=
  open_file k theme_id task_id.

(** Modelled from the spec: [FileUtils.save_file] on a task resource
    (write_record): persists the content at the derived location, creating
    it when absent and overwriting it unconditionally otherwise. *)
Definition save_file (k : task_kind) (c : content k) (theme_id task_id : Z) : M unit :=
  log (mkCall Save (TaskFile k) (Some theme_id) (Some task_id)) ;;
  get_filepath (Some theme_id) ;;
  s <- get_store ;;
  put_store (set_files k (<[(theme_id, task_id) := c]> (files k s)) s).

(** Modelled from the spec: [FileUtils.save_file_values]
    (write_sequence_values): the contract of [save_file], for the fixture
    kinds. *)
Definition save_file_values (k : task_kind) (c : content k) (theme_id task_id : Z) : M unit :=
  save_file k c theme_id task_id.

(** Modelled from the spec: [FileUtils.remove_file] (delete_record):
    removes the resource, and fails as [open_file] does when the theme or
    the resource does not exist. *)
Definition remove_file (k : task_kind) (theme_id task_id : Z) : M unit :=
  log (mkCall Remove (TaskFile k) (Some theme_id) (Some task_id)) ;;
  get_filepath (Some theme_id) ;;
  s <- get_store ;;
  match files k s !! (theme_id, task_id) with
  | Some _ => put_store (set_files k (delete (theme_id, task_id) (files k s)) s)
  | None => raise FileNotFoundError
  end.

(** Modelled from the spec: [FileUtils.open_file('theme_index', ...)]: the
    whole theme index, a single resource whatever the identifiers are;
    [IndexError] when a [theme_id] is given and is out of range. *)
Definition open_file_theme_index (theme_id task_id : option Z) : M (list Theme) :=
  log (mkCall Open ThemeIndex theme_id task_id) ;;
  get_filepath theme_id ;;
  s <- get_store ;;
  ret (theme_index s).

(** Modelled from the spec: [FileUtils.save_file('theme_index', ...)]. *)
Definition save_file_theme_index (c : list Theme) (theme_id task_id : option Z) : M unit :=
  log (mkCall Save ThemeIndex theme_id task_id) ;;
  get_filepath theme_id ;;
  s <- get_store ;;
  put_store (set_theme_index c s).

(** ** Truthiness *)

Definition truthy_str (s : string) : bool :=
  match s with
  | EmptyString => false
  | String _ _ => true
  end.

Definition truthy_list {A} (l : list A) : bool :=
  match l with
  | [] => false
  | _ :: _ => true
  end.

(** [bool(o)] for a value that may be [None]. *)
Definition truthy_opt {A} (f : A → bool) (o : option A) : bool :=
  match o with
  | None => false
  | Some x => f x
  end.

(** ** The handlers *)

(** The [except] clauses shared by the handlers. *)
Definition except_FileNotFoundError_IndexError {A} (e : exn) : option (M A) :=
  match e with
  | FileNotFoundError => Some (raise (HTTPException 404 NotFoundTask))
  | IndexError => Some (raise (HTTPException 404 NotFoundTheme))
  | _ => None
  end.

Definition except_IndexError_FileNotFoundError {A} (e : exn) : option (M A) :=
  match e with
  | IndexError => Some (raise (HTTPException 404 NotFoundTheme))
  | FileNotFoundError => Some (raise (HTTPException 404 NotFoundTask))
  | _ => None
  end.

Definition except_FileNotFoundError {A} (e : exn) : option (M A) :=
  match e with
  | FileNotFoundError => Some (raise (HTTPException 404 NotFoundTask))
  | _ => None
  end.

Definition except_IndexError {A} (e : exn) : option (M A) :=
  match e with
  | IndexError => Some (raise (HTTPException 404 NotFoundTheme))
  | _ => None
  end.

(** The task assembled from the stored info dictionary and the two
    fixture lists: the [else] branch of [read_task]. *)
Definition Task_of_info (description : TaskInfo) (inputs outputs : list Value) : Task :=
  mkTask (i_id description) (i_theme_id description)
         (i_title description) (i_description description) inputs outputs.

Definition read_task (theme_id task_id : Z) : M Task :=
  try_except
    (description <- open_file task_info theme_id task_id ;;
     inputs <- open_file_values task_input theme_id task_id ;;
     outputs <- open_file_values task_output theme_id task_id ;;
     ret (description, inputs, outputs))
    except_FileNotFoundError_IndexError
    (λ '(description, inputs, outputs), ret (Task_of_info description inputs outputs)).

(** [themes_json[theme_id]], or an uncaught [IndexError]. *)
Definition getitem {A} (l : list A) (i : Z) : M A :=
  match py_index l i with
  | Some x => ret x
  | None => raise IndexError
  end.

(** [themes_json[theme_id]["count"] = n]. *)
Definition set_count (themes : list Theme) (theme_id : Z) (n : Z) : M (list Theme) :=
  th <- getitem themes theme_id ;;
  match py_setitem themes theme_id (mkTheme (th_id th) n) with
  | Some themes' => ret themes'
  | None => raise IndexError
  end.

Definition create_task (theme_id : Z) (task : TaskCreate) (code : UploadFile) : M Task :=
  themes_json <- try_except (open_file_theme_index (Some theme_id) None)
                   except_IndexError ret ;;
  (* Get ID *)
  th <- getitem themes_json theme_id ;;
  let task_id := th_count th + 1 in
  (* Create new task *)
  let task := mkTask task_id theme_id (c_title task) (c_description task)
                     (c_input task) (c_output task) in
  (* New task's info dictionary *)
  let task_description :=
    mkTaskInfo (t_id task) (t_theme_id task) (t_title task) (t_description task) in
  save_file task_info task_description theme_id (t_id task) ;;
  save_file_values task_input (t_input task) theme_id (t_id task) ;;
  save_file_values task_output (t_output task) theme_id (t_id task) ;;
  save_file task_code code theme_id (t_id task) ;;
  (* Update the theme tasks count *)
  themes_json <- set_count themes_json theme_id task_id ;;
  save_file_theme_index themes_json None None ;;
  ret task.

(** [await code.read()]: [code] is [None] when the request has no upload
    ([File(None)]), and [None] has no [read]. *)
Definition read_upload (code : option UploadFile) : M (list Byte.byte) :=
  match code with
  | Some b => ret b
  | None => raise AttributeError
  end.

(** [x if x else y] for a string that may be [None]. *)
Definition or_else_str (x : option string) (y : string) : string :=
  match x with
  | Some s => if truthy_str s then s else y
  | None => y
  end.

Definition update_task (theme_id task_id : Z) (task : TaskUpdate)
    (code : option UploadFile) : M TaskUpdate :=
  (* task.theme_id = theme_id; task.id = task_id *)
  let task := mkTaskUpdate (Some task_id) (Some theme_id) (u_title task)
                (u_description task) (u_input task) (u_output task) in
  let task_update := task in
  (* new_task_info *)
  let new0 := u_title task_update in
  let new1 := u_description task_update in
  let new2 := u_input task_update in
  let new3 := u_output task_update in
  new4 <- read_upload code ;;
  (* Check if there was an empty request *)
  if negb (truthy_opt truthy_str new0 || truthy_opt truthy_str new1
           || truthy_opt truthy_list new2 || truthy_opt truthy_list new3
           || truthy_list new4)
  then raise (HTTPException 422 EmptyRequest)
  else
    (* Update task's description *)
    (if truthy_opt truthy_str new0 || truthy_opt truthy_str new1 then
       try_except (open_file task_info theme_id task_id)
         except_FileNotFoundError_IndexError
         (λ info,
            let info := mkTaskInfo (i_id info) (i_theme_id info)
                          (or_else_str new0 (i_title info))
                          (i_description info) in
            let info := mkTaskInfo (i_id info) (i_theme_id info)
                          (i_title info)
                          (or_else_str new1 (i_description info)) in
            save_file task_info info
              (default 0 (u_theme_id task)) (default 0 (u_id task)))
     else ret tt) ;;
    (* Update task's input values *)
    (if truthy_opt truthy_list new2 then
       try_except (save_file_values task_input (default [] (u_input task_update))
                     theme_id (default 0 (u_id task)))
         except_FileNotFoundError ret
     else ret tt) ;;
    (* Update task answer's output values *)
    (if truthy_opt truthy_list new3 then
       try_except (save_file_values task_output (default [] (u_output task_update))
                     theme_id (default 0 (u_id task)))
         except_FileNotFoundError ret
     else ret tt) ;;
    (* Update task's code file *)
    (if truthy_list new4 then
       try_except (save_file task_code new4 theme_id (default 0 (u_id task)))
         except_IndexError_FileNotFoundError ret
     else ret tt) ;;
    ret task_update.

Definition delete_task (task_id theme_id : Z) : M Response :=
  let files := [task_info; task_input; task_output; task_code] in
  for_each files (λ title,
    try_except (remove_file title theme_id task_id)
      except_IndexError_FileNotFoundError ret) ;;
  (* Open themes info *)
  themes <- open_file_theme_index None None ;;
  (* Update the theme tasks count *)
  th <- getitem themes theme_id ;;
  themes <- set_count themes theme_id (th_count th - 1) ;;
  save_file_theme_index themes (Some theme_id) (Some task_id) ;;
  ret (mkResponse HTTP_204_NO_CONTENT).

(** [create_task] run on a sequence of payloads, one request after the
    other: the successive creations of the counter-consistency property. *)
Fixpoint create_tasks (theme_id : Z) (payloads : list (TaskCreate * UploadFile))
    : M (list Task) :=
  match payloads with
  | [] => ret []
  | (task, code) :: rest =>
      t <- create_task theme_id task code ;;
      ts <- create_tasks theme_id rest ;;
      ret (t :: ts)
  end.

(** ** Vocabulary of the statements *)

(** The world after one more call to the engine. *)
Definition logged (c : Call) (w : World) : World :=
  mkWorld (store w) (calls w ++ [c]).

Definition call_of (o : op) (k : task_kind) (theme_id task_id : Z) : Call :=
  mkCall o (TaskFile k) (Some theme_id) (Some task_id).

(** The task [(theme_id, task_id)] has no resource of any kind. *)
Definition never_created (s : Storage) (theme_id task_id : Z) : Prop :=
  ∀ k, files k s !! (theme_id, task_id) = None.

(** The task [(theme_id, task_id)] has its four resources. *)
Definition stored (s : Storage) (theme_id task_id : Z) : Prop :=
  ∀ k, is_Some (files k s !! (theme_id, task_id)).

(** Two storages agree on every task other than [(theme_id, task_id)]. *)
Definition same_elsewhere (s s' : Storage) (theme_id task_id : Z) : Prop :=
  ∀ k j, j ≠ (theme_id, task_id) → files k s' !! j = files k s !! j.

(** No field of the request body is truthy. *)
Definition no_field (task : TaskUpdate) : bool :=
  negb (truthy_opt truthy_str (u_title task)
        || truthy_opt truthy_str (u_description task)
        || truthy_opt truthy_list (u_input task)
        || truthy_opt truthy_list (u_output task)).

(** The request body with its identifiers replaced. *)
Definition with_ids (id theme_id : option Z) (task : TaskUpdate) : TaskUpdate :=
  mkTaskUpdate id theme_id (u_title task) (u_description task)
               (u_input task) (u_output task).

(** A value that is present and empty made absent. *)
Definition absent_if_empty {A} (f : A → bool) (o : option A) : option A :=
  match o with
  | Some x => if f x then Some x else None
  | None => None
  end.

(** The request body with every empty field made absent. *)
Definition without_empty (task : TaskUpdate) : TaskUpdate :=
  mkTaskUpdate (u_id task) (u_theme_id task)
    (absent_if_empty truthy_str (u_title task))
    (absent_if_empty truthy_str (u_description task))
    (absent_if_empty truthy_list (u_input task))
    (absent_if_empty truthy_list (u_output task)).

Definition map_result {A B} (f : A → B) (r : result A) : result B :=
  match r with
  | Return a => Return (f a)
  | Raise e => Raise e
  end.

(** Which fields of an update are taken as present. *)
Definition has_info (task : TaskUpdate) : bool :=
  truthy_opt truthy_str (u_title task) || truthy_opt truthy_str (u_description task).

Definition has_input (task : TaskUpdate) : bool := truthy_opt truthy_list (u_input task).

Definition has_output (task : TaskUpdate) : bool := truthy_opt truthy_list (u_output task).

(** The info dictionary with the present fields of the request laid over. *)
Definition overlay (task : TaskUpdate) (d : TaskInfo) : TaskInfo :=
  mkTaskInfo (i_id d) (i_theme_id d)
    (or_else_str (u_title task) (i_title d))
    (or_else_str (u_description task) (i_description d)).

(** The storage after an update all of whose steps went through. *)
Definition updated (theme_id task_id : Z) (task : TaskUpdate) (b : list Byte.byte)
    (s : Storage) : Storage :=
  let j := (theme_id, task_id) in
  mkStorage (theme_index s)
    (if has_info task then
       match infos s !! j with
       | Some d => <[j := overlay task d]> (infos s)
       | None => infos s
       end
     else infos s)
    (if has_input task then <[j := default [] (u_input task)]> (inputs s) else inputs s)
    (if has_output task then <[j := default [] (u_output task)]> (outputs s) else outputs s)
    (if truthy_list b then <[j := b]> (codes s) else codes s).

(** The engine calls of an update all of whose steps went through. *)
Definition update_calls (theme_id task_id : Z) (task : TaskUpdate) (b : list Byte.byte)
    : list Call :=
  (if has_info task
   then [call_of Open task_info theme_id task_id; call_of Save task_info theme_id task_id]
   else [])
  ++ (if has_input task then [call_of Save task_input theme_id task_id] else [])
  ++ (if has_output task then [call_of Save task_output theme_id task_id] else [])
  ++ (if truthy_list b then [call_of Save task_code theme_id task_id] else []).

(** The error with which the removal of the resource of kind [k] of a task
    fails in the storage [s], if it does. *)
Definition removal_fails (s : Storage) (theme_id task_id : Z) (k : task_kind)
    : option ErrorModel :=
  match py_index (theme_index s) theme_id with
  | None => Some NotFoundTheme
  | Some _ =>
      match files k s !! (theme_id, task_id) with
      | None => Some NotFoundTask
      | Some _ => None
      end
  end.

(** The storage once the resources of the kinds [ks] of a task are removed. *)
Definition remove_kinds (ks : list task_kind) (j : key) (s : Storage) : Storage :=
  foldl (λ s k, set_files k (delete j (files k s)) s) s ks.

(** The error a task that has no resource, or whose theme is not in the
    index, is reported with. *)
Definition missing (s : Storage) (theme_id task_id : Z) (e : ErrorModel) : Prop :=
  match py_index (theme_index s) theme_id with
  | None => e = NotFoundTheme
  | Some _ => never_created s theme_id task_id ∧ e = NotFoundTask
  end.

(** The task a creation with the identifier [n] returns. *)
Definition task_of (n theme_id : Z) (task : TaskCreate) : Task :=
  mkTask n theme_id (c_title task) (c_description task) (c_input task) (c_output task).

(** The tasks that successive creations return in a theme whose count
    is [n]. *)
Fixpoint created (n theme_id : Z) (payloads : list (TaskCreate * UploadFile)) : list Task :=
  match payloads with
  | [] => []
  | (task, _) :: rest => task_of (n + 1) theme_id task :: created (n + 1) theme_id rest
  end.

(** The calls of one creation of the task [n], in the order they are made. *)
Definition create_calls (theme_id n : Z) : list Call :=
  [mkCall Open ThemeIndex (Some theme_id) None;
   call_of Save task_info theme_id n;
   call_of Save task_input theme_id n;
   call_of Save task_output theme_id n;
   call_of Save task_code theme_id n;
   mkCall Save ThemeIndex None None].

(** ** Sample storages *)

(** Two themes and no task. *)
Definition storage_ex : Storage :=
  mkStorage [mkTheme 0 0; mkTheme 1 0] ∅ ∅ ∅ ∅.

(** One theme with one task, whose info resource is lost. *)
Definition storage_torn : Storage :=
  mkStorage [mkTheme 0 1] ∅
    {[ (0, 1) := [VInt 1] ]} {[ (0, 1) := [VInt 2] ]} {[ (0, 1) := [Byte.x41] ]}.

(** One theme with one task and its four resources. *)
Definition storage_one : Storage :=
  mkStorage [mkTheme 0 1]
    {[ (0, 1) := mkTaskInfo 1 0 "A" "d" ]}
    {[ (0, 1) := [VInt 1] ]} {[ (0, 1) := [VInt 2] ]} {[ (0, 1) := [Byte.x41] ]}.

(** The request body that carries no field at all. *)
Definition no_fields : TaskUpdate := mkTaskUpdate None None None None None None.

(** The request body that carries a title only. *)
Definition title_only (id theme_id : option Z) (title : string) : TaskUpdate :=
  mkTaskUpdate id theme_id (Some title) None None None.

(** The content a creation of the task [n] saves as its resource of kind
    [k]. *)
Definition create_content (k : task_kind) (n theme_id : Z) (task : TaskCreate)
    (code : UploadFile) : content k :=
  match k with
  | task_info => mkTaskInfo n theme_id (c_title task) (c_description task)
  | task_input => c_input task
  | task_output => c_output task
  | task_code => code
  end.

(** A handler ends in its response or in a 404, and lets no Python
    exception through. *)
Definition answers_or_404 {A} (r : result A) : Prop :=
  match r with
  | Return _ => True
  | Raise (HTTPException 404 _) => True
  | Raise _ => False
  end.

(** Two creations, the deletion of the first task, and a third creation,
    followed by a read of the second task. *)
Definition create_after_delete (theme_id : Z) (p1 p2 p3 : TaskCreate * UploadFile)
    : M (Task * Task * Task * Task) :=
  a <- create_task theme_id p1.1 p1.2 ;;
  b <- create_task theme_id p2.1 p2.2 ;;
  delete_task (t_id a) theme_id ;;
  c <- create_task theme_id p3.1 p3.2 ;;
  r <- read_task theme_id (t_id b) ;;
  ret (a, b, c, r).

(** * Properties *)

(** ** Python indexing *)

Lemma py_pos_lt n i p : py_pos n i = Some p → (p < n)%nat.
Proof.
  unfold py_pos. intros H.
  destruct (0 <=? i) eqn:H0.
  - destruct (i <? Z.of_nat n) eqn:H1; inversion H; subst. lia.
  - destruct (- Z.of_nat n <=? i) eqn:H1; inversion H; subst. lia.
Qed.

Lemma py_index_setitem {A} (l l' : list A) i x :
  py_setitem l i x = Some l' → py_index l' i = Some x.
Proof.
  unfold py_setitem, py_index. intros H.
  destruct (py_pos (length l) i) as [p|] eqn:Hp; simpl in H; [|done].
  inversion H; subst. rewrite length_insert, Hp. simpl.
  apply list_lookup_insert_eq. by eapply py_pos_lt.
Qed.

Lemma py_setitem_is_Some {A} (l : list A) i x y :
  py_index l i = Some y → ∃ l', py_setitem l i x = Some l'.
Proof.
  unfold py_setitem, py_index. intros H.
  destruct (py_pos (length l) i) as [p|]; simpl in *; [eauto|done].
Qed.

(** ** The engine, one call at a time *)

(** Unfolds one engine call down to the storage and decides the lookups. *)
Ltac engine_eq :=
  unfold open_file, save_file, remove_file, open_file_theme_index,
    save_file_theme_index, get_filepath, bind, log, get_store, put_store,
    ret, raise, logged, call_of;
  simpl;
  repeat match goal with
         | |- context [match ?o with Some _ => _ | None => _ end] =>
             destruct o eqn:?; simpl
         end;
  try reflexivity; try congruence.

Lemma get_filepath_eq t w :
  get_filepath (Some t) w =
    match py_index (theme_index (store w)) t with
    | Some _ => (Return tt, w)
    | None => (Raise IndexError, w)
    end.
Proof. engine_eq. Qed.

Lemma open_file_eq k t i w :
  open_file k t i w =
    let w' := logged (call_of Open k t i) w in
    match py_index (theme_index (store w)) t with
    | None => (Raise IndexError, w')
    | Some _ =>
        match files k (store w) !! (t, i) with
        | Some c => (Return c, w')
        | None => (Raise FileNotFoundError, w')
        end
    end.
Proof. engine_eq. Qed.

Lemma save_file_eq k c t i w :
  save_file k c t i w =
    let w' := logged (call_of Save k t i) w in
    match py_index (theme_index (store w)) t with
    | None => (Raise IndexError, w')
    | Some _ =>
        (Return tt,
         mkWorld (set_files k (<[(t, i) := c]> (files k (store w))) (store w))
                 (calls w'))
    end.
Proof. engine_eq. Qed.

Lemma remove_file_eq k t i w :
  remove_file k t i w =
    let w' := logged (call_of Remove k t i) w in
    match py_index (theme_index (store w)) t with
    | None => (Raise IndexError, w')
    | Some _ =>
        match files k (store w) !! (t, i) with
        | Some _ =>
            (Return tt,
             mkWorld (set_files k (delete (t, i) (files k (store w))) (store w))
                     (calls w'))
        | None => (Raise FileNotFoundError, w')
        end
    end.
Proof. engine_eq. Qed.

Lemma open_file_theme_index_eq t i w :
  open_file_theme_index t i w =
    let w' := logged (mkCall Open ThemeIndex t i) w in
    match t with
    | None => (Return (theme_index (store w)), w')
    | Some t' =>
        match py_index (theme_index (store w)) t' with
        | Some _ => (Return (theme_index (store w)), w')
        | None => (Raise IndexError, w')
        end
    end.
Proof. engine_eq. Qed.

Lemma save_file_theme_index_eq c t i w :
  save_file_theme_index c t i w =
    let w' := logged (mkCall Save ThemeIndex t i) w in
    match t with
    | None => (Return tt, mkWorld (set_theme_index c (store w)) (calls w'))
    | Some t' =>
        match py_index (theme_index (store w)) t' with
        | Some _ => (Return tt, mkWorld (set_theme_index c (store w)) (calls w'))
        | None => (Raise IndexError, w')
        end
    end.
Proof. engine_eq. Qed.

#[global] Arguments open_file : simpl never.
#[global] Arguments open_file_values : simpl never.
#[global] Arguments save_file : simpl never.
#[global] Arguments save_file_values : simpl never.
#[global] Arguments remove_file : simpl never.
#[global] Arguments open_file_theme_index : simpl never.
#[global] Arguments save_file_theme_index : simpl never.


(** Brings the log of a world built by successive calls to one list. *)
Ltac norm_world :=
  unfold logged, call_of; simpl; rewrite <- ?app_assoc; simpl.

(** ** The handlers, run to their result *)

Lemma read_task_eq t i w :
  read_task t i w =
    let s := store w in
    match py_index (theme_index s) t with
    | None =>
        (Raise (HTTPException 404 NotFoundTheme),
         logged (call_of Open task_info t i) w)
    | Some _ =>
        match infos s !! (t, i), inputs s !! (t, i), outputs s !! (t, i) with
        | None, _, _ =>
            (Raise (HTTPException 404 NotFoundTask),
             logged (call_of Open task_info t i) w)
        | Some _, None, _ =>
            (Raise (HTTPException 404 NotFoundTask),
             logged (call_of Open task_input t i)
               (logged (call_of Open task_info t i) w))
        | Some _, Some _, None =>
            (Raise (HTTPException 404 NotFoundTask),
             logged (call_of Open task_output t i)
               (logged (call_of Open task_input t i)
                  (logged (call_of Open task_info t i) w)))
        | Some d, Some a, Some b =>
            (Return (Task_of_info d a b),
             logged (call_of Open task_output t i)
               (logged (call_of Open task_input t i)
                  (logged (call_of Open task_info t i) w)))
        end
    end.
Proof.
  unfold read_task, try_except, open_file_values, bind.
  rewrite open_file_eq. simpl.
  destruct (py_index _ _) eqn:Ht; [|done].
  destruct (infos _ !! _) eqn:H1; [|done].
  rewrite open_file_eq. simpl. rewrite Ht.
  destruct (inputs _ !! _) eqn:H2; [|done].
  rewrite open_file_eq. simpl. rewrite Ht.
  by destruct (outputs _ !! _) eqn:H3.
Qed.

Lemma update_task_no_upload t i task w :
  update_task t i task None w = (Raise AttributeError, w).
Proof. reflexivity. Qed.

Lemma update_task_empty t i task b w :
  no_field task = true → truthy_list b = false →
  update_task t i task (Some b) w = (Raise (HTTPException 422 EmptyRequest), w).
Proof.
  unfold no_field, update_task, bind, read_upload, ret. simpl.
  intros H Hb. rewrite Hb, orb_false_r.
  by destruct (_ || _).
Qed.
Lemma update_task_valid t i task b w th :
  py_index (theme_index (store w)) t = Some th →
  update_task t i task (Some b) w =
    let done :=
      (Return (with_ids (Some i) (Some t) task),
       mkWorld (updated t i task b (store w)) (calls w ++ update_calls t i task b)) in
    if no_field task && negb (truthy_list b)
    then (Raise (HTTPException 422 EmptyRequest), w)
    else if has_info task then
      match infos (store w) !! (t, i) with
      | None =>
          (Raise (HTTPException 404 NotFoundTask), logged (call_of Open task_info t i) w)
      | Some _ => done
      end
    else done.
Proof.
  intros Ht. destruct w as [s cs]. simpl in *.
  unfold update_task, no_field, has_info, updated, update_calls, has_info, has_input, has_output, with_ids, try_except, bind, read_upload, ret, raise, save_file_values.
  simpl.
  destruct (truthy_opt truthy_str (u_title task)) eqn:E0;
  destruct (truthy_opt truthy_str (u_description task)) eqn:E1;
  destruct (truthy_opt truthy_list (u_input task)) eqn:E2;
  destruct (truthy_opt truthy_list (u_output task)) eqn:E3;
  destruct (truthy_list b) eqn:E4; simpl;
  rewrite ?open_file_eq; simpl; rewrite ?Ht; simpl;
  try (destruct (infos s !! (t, i)) eqn:Hi; simpl);
  repeat (rewrite save_file_eq; simpl; rewrite ?Ht; simpl);
  norm_world; try reflexivity.
  all: rewrite ?Hi; try reflexivity.
Qed.

Lemma update_task_invalid t i task b w :
  py_index (theme_index (store w)) t = None →
  update_task t i task (Some b) w =
    if no_field task && negb (truthy_list b)
    then (Raise (HTTPException 422 EmptyRequest), w)
    else if has_info task
    then (Raise (HTTPException 404 NotFoundTheme), logged (call_of Open task_info t i) w)
    else if has_input task
    then (Raise IndexError, logged (call_of Save task_input t i) w)
    else if has_output task
    then (Raise IndexError, logged (call_of Save task_output t i) w)
    else (Raise (HTTPException 404 NotFoundTheme), logged (call_of Save task_code t i) w).
Proof.
  intros Ht. destruct w as [s cs]. simpl in *.
  unfold update_task, no_field, has_info, has_input, has_output, try_except,
    bind, read_upload, ret, raise, save_file_values.
  simpl.
  destruct (truthy_opt truthy_str (u_title task)) eqn:E0;
  destruct (truthy_opt truthy_str (u_description task)) eqn:E1;
  destruct (truthy_opt truthy_list (u_input task)) eqn:E2;
  destruct (truthy_opt truthy_list (u_output task)) eqn:E3;
  destruct (truthy_list b) eqn:E4; simpl;
  rewrite ?open_file_eq, ?save_file_eq; simpl; rewrite ?Ht; simpl;
  reflexivity.
Qed.

Lemma create_task_invalid t task code w :
  py_index (theme_index (store w)) t = None →
  create_task t task code w =
    (Raise (HTTPException 404 NotFoundTheme), logged (mkCall Open ThemeIndex (Some t) None) w).
Proof.
  intros Ht. unfold create_task, try_except, bind.
  rewrite open_file_theme_index_eq. simpl. by rewrite Ht.
Qed.

Lemma create_task_valid t task code w th :
  py_index (theme_index (store w)) t = Some th →
  let n := th_count th + 1 in
  ∃ themes,
    py_setitem (theme_index (store w)) t (mkTheme (th_id th) n) = Some themes ∧
    create_task t task code w =
      (Return (mkTask n t (c_title task) (c_description task) (c_input task) (c_output task)),
       mkWorld
         (mkStorage themes
            (<[(t, n) := mkTaskInfo n t (c_title task) (c_description task)]> (infos (store w)))
            (<[(t, n) := c_input task]> (inputs (store w)))
            (<[(t, n) := c_output task]> (outputs (store w)))
            (<[(t, n) := code]> (codes (store w))))
         (calls w ++ [mkCall Open ThemeIndex (Some t) None;
                      call_of Save task_info t n;
                      call_of Save task_input t n;
                      call_of Save task_output t n;
                      call_of Save task_code t n;
                      mkCall Save ThemeIndex None None])).
Proof.
  intros Ht n.
  destruct (py_setitem_is_Some _ _ (mkTheme (th_id th) n) _ Ht) as [themes Hs].
  exists themes. split; [done|].
  destruct w as [s cs]. simpl in *.
  unfold create_task, try_except, bind, save_file_values, set_count, getitem.
  rewrite open_file_theme_index_eq. simpl. rewrite Ht. simpl.
  unfold ret at 1. rewrite Ht.
  repeat (rewrite save_file_eq; simpl; rewrite ?Ht; simpl).
  unfold bind, ret. fold n. rewrite Hs.
  norm_world. reflexivity.
Qed.

Lemma delete_task_invalid t i w :
  py_index (theme_index (store w)) t = None →
  delete_task i t w =
    (Raise (HTTPException 404 NotFoundTheme), logged (call_of Remove task_info t i) w).
Proof.
  intros Ht. unfold delete_task, bind. simpl. unfold bind, try_except.
  rewrite remove_file_eq. simpl. by rewrite Ht.
Qed.

Lemma delete_task_valid t i w th :
  py_index (theme_index (store w)) t = Some th →
  let s := store w in
  let j := (t, i) in
  let fail ks :=
    (Raise (HTTPException 404 NotFoundTask),
     mkWorld (remove_kinds (removelast ks) j s)
             (calls w ++ map (λ k, call_of Remove k t i) ks)) in
  delete_task i t w =
    match infos s !! j, inputs s !! j, outputs s !! j, codes s !! j with
    | None, _, _, _ => fail [task_info]
    | Some _, None, _, _ => fail [task_info; task_input]
    | Some _, Some _, None, _ => fail [task_info; task_input; task_output]
    | Some _, Some _, Some _, None => fail [task_info; task_input; task_output; task_code]
    | Some _, Some _, Some _, Some _ =>
        match py_setitem (theme_index s) t (mkTheme (th_id th) (th_count th - 1)) with
        | Some themes =>
            (Return (mkResponse HTTP_204_NO_CONTENT),
             mkWorld
               (set_theme_index themes
                  (remove_kinds [task_info; task_input; task_output; task_code] j s))
               (calls w ++ map (λ k, call_of Remove k t i)
                               [task_info; task_input; task_output; task_code]
                        ++ [mkCall Open ThemeIndex None None;
                            mkCall Save ThemeIndex (Some t) (Some i)]))
        | None =>
            (Raise IndexError,
             mkWorld (remove_kinds [task_info; task_input; task_output; task_code] j s)
               (calls w ++ map (λ k, call_of Remove k t i)
                               [task_info; task_input; task_output; task_code]
                        ++ [mkCall Open ThemeIndex None None]))
        end
    end.
Proof.
  intros Ht. destruct w as [s cs]. simpl in *.
  unfold delete_task, bind. simpl. unfold bind, try_except, set_count, getitem.
  rewrite remove_file_eq. simpl. rewrite Ht.
  destruct (infos s !! (t, i)) eqn:H1; [|by norm_world].
  unfold ret at 1. rewrite remove_file_eq. simpl. rewrite Ht.
  destruct (inputs s !! (t, i)) eqn:H2; [|by norm_world].
  unfold ret at 1. rewrite remove_file_eq. simpl. rewrite Ht.
  destruct (outputs s !! (t, i)) eqn:H3; [|by norm_world].
  unfold ret at 1. rewrite remove_file_eq. simpl. rewrite Ht.
  destruct (codes s !! (t, i)) eqn:H4; [|by norm_world].
  unfold ret at 1 2. simpl. rewrite Ht. unfold ret at 1.
  unfold bind. simpl. unfold ret at 1.
  destruct (py_setitem _ _ _) eqn:Hs; [|by norm_world].
  unfold ret at 1. rewrite save_file_theme_index_eq. simpl. rewrite Ht. by norm_world.
Qed.

(** ** Creation *)

Lemma created_ids n t payloads :
  t_id <$> created n t payloads
  = (λ k, n + Z.of_nat k) <$> seq 1 (length payloads).
Proof.
  revert n. induction payloads as [|[task code] rest IH]; intros n; [done|].
  simpl. f_equal.
  rewrite IH, <- (fmap_S_seq 1), <- list_fmap_compose.
  apply list_fmap_ext. intros _ k _. simpl. lia.
Qed.

Lemma create_tasks_run t payloads : ∀ w th,
  py_index (theme_index (store w)) t = Some th →
  ∃ w',
    create_tasks t payloads w = (Return (created (th_count th) t payloads), w') ∧
    py_index (theme_index (store w')) t
    = Some (mkTheme (th_id th) (th_count th + Z.of_nat (length payloads))).
Proof.
  induction payloads as [|[task code] rest IH]; intros w th Ht.
  - exists w. split; [done|]. simpl. rewrite Z.add_0_r. by destruct th.
  - destruct (create_task_valid t task code w th Ht) as (themes & Hs & Hc).
    apply py_index_setitem in Hs.
    match type of Hc with _ = (_, ?w1) =>
      destruct (IH w1 _ Hs) as (w' & Hr & Ht') end.
    exists w'. split.
    + simpl. unfold bind at 1. rewrite Hc. unfold bind at 1. by rewrite Hr.
    + rewrite Ht'. simpl. do 2 f_equal. lia.
Qed.

(** C1: for a theme_id that is a valid index into the theme index, a creation
    returns the task with id = count + 1, the theme_id and the payload
    fields; it saves info, input values, output values and code in that
    order, then sets the count of the theme to the new id and saves the
    index. Hence N successive creations in a theme whose count is 0 return
    the ids 1..N and leave the count at N. *)
Theorem create_task_assigns_next_id (w : World) (theme_id : Z) (th : Theme)
    (task : TaskCreate) (code : UploadFile) :
  py_index (theme_index (store w)) theme_id = Some th →
  let n := th_count th + 1 in
  let j := (theme_id, n) in
  (∃ w',
     create_task theme_id task code w = (Return (task_of n theme_id task), w') ∧
     calls w' = calls w ++ create_calls theme_id n ∧
     infos (store w') = <[j := mkTaskInfo n theme_id (c_title task) (c_description task)]>
                          (infos (store w)) ∧
     inputs (store w') = <[j := c_input task]> (inputs (store w)) ∧
     outputs (store w') = <[j := c_output task]> (outputs (store w)) ∧
     codes (store w') = <[j := code]> (codes (store w)) ∧
     py_setitem (theme_index (store w)) theme_id (mkTheme (th_id th) n)
     = Some (theme_index (store w')) ∧
     py_index (theme_index (store w')) theme_id = Some (mkTheme (th_id th) n))
  ∧ ∀ payloads : list (TaskCreate * UploadFile),
      th_count th = 0 →
      ∃ ts w',
        create_tasks theme_id payloads w = (Return ts, w') ∧
        t_id <$> ts = Z.of_nat <$> seq 1 (length payloads) ∧
        th_count <$> py_index (theme_index (store w')) theme_id
        = Some (Z.of_nat (length payloads)).
Proof.
  intros Ht n j. split.
  - destruct (create_task_valid theme_id task code w th Ht) as (themes & Hs & Hc).
    eexists. split; [exact Hc|]. simpl.
    repeat split; try done. by apply py_index_setitem in Hs.
  - intros payloads H0.
    destruct (create_tasks_run theme_id payloads w th Ht) as (w' & Hr & Ht').
    exists (created (th_count th) theme_id payloads), w'.
    split; [done|]. split.
    + rewrite created_ids, H0. by apply list_fmap_ext.
    + rewrite Ht', H0. done.
Qed.

Lemma create_task_assigns_next_id_witness :
  py_index (theme_index storage_ex) 1 = Some (mkTheme 1 0) ∧
  ∃ ts w',
    create_tasks 1 [(mkTaskCreate "A" "" [VInt 1] [VInt 2], [Byte.x41]);
                    (mkTaskCreate "B" "" [] [], [])] (mkWorld storage_ex [])
    = (Return ts, w') ∧
    t_id <$> ts = [1; 2] ∧
    th_count <$> py_index (theme_index (store w')) 1 = Some 2.
Proof.
  split; [reflexivity|].
  exact (proj2 (create_task_assigns_next_id (mkWorld storage_ex []) 1 (mkTheme 1 0)
                  (mkTaskCreate "A" "" [VInt 1] [VInt 2]) [Byte.x41] eq_refl)
               [(mkTaskCreate "A" "" [VInt 1] [VInt 2], [Byte.x41]);
                (mkTaskCreate "B" "" [] [], [])] eq_refl).
Defined.

(** ** Reading *)

(** C6: reading (theme_id, task_id) returns the task assembled from the
    stored info record and the stored input and output sequences: its id,
    theme_id, title and description are those of the stored info, its input
    and output are the stored lists. It fails NotFoundTheme when theme_id is
    out of range in the theme index and NotFoundTask when a resource it
    opens is absent; it only opens resources and leaves the storage as it
    was. *)
Theorem read_task_assembles_or_not_found (w : World) (theme_id task_id : Z) :
  let s := store w in
  let j := (theme_id, task_id) in
  (read_task theme_id task_id w).1 =
    match py_index (theme_index s) theme_id with
    | None => Raise (HTTPException 404 NotFoundTheme)
    | Some _ =>
        match infos s !! j, inputs s !! j, outputs s !! j with
        | Some d, Some a, Some b =>
            Return (mkTask (i_id d) (i_theme_id d) (i_title d) (i_description d) a b)
        | _, _, _ => Raise (HTTPException 404 NotFoundTask)
        end
    end
  ∧ store (read_task theme_id task_id w).2 = s
  ∧ ∃ cs, calls (read_task theme_id task_id w).2 = calls w ++ cs
          ∧ Forall (λ c, call_op c = Open) cs.
Proof.
  intros s j. subst s j. rewrite read_task_eq. cbv zeta.
  destruct (py_index _ _).
  - destruct (infos (store w) !! (theme_id, task_id)),
      (inputs (store w) !! (theme_id, task_id)),
      (outputs (store w) !! (theme_id, task_id)); simpl;
      (split; [done|split; [done|]]); rewrite <- ?app_assoc; eexists;
      (split; [done|]); repeat constructor.
  - simpl. split; [done|split; [done|]]. eexists. split; [done|]. repeat constructor.
Qed.

Lemma read_task_assembles_or_not_found_witness :
  let w := mkWorld storage_one [mkCall Save ThemeIndex None None] in
  (read_task 0 1 w).1 = Return (mkTask 1 0 "A" "d" [VInt 1] [VInt 2])
  ∧ store (read_task 0 1 w).2 = storage_one
  ∧ ∃ cs, calls (read_task 0 1 w).2 = calls w ++ cs
          ∧ Forall (λ c, call_op c = Open) cs.
Proof.
  intros w. exact (read_task_assembles_or_not_found w 0 1).
Defined.

(** ** Deletion *)

Lemma remove_kinds_theme_index ks j s :
  theme_index (remove_kinds ks j s) = theme_index s.
Proof.
  revert s. induction ks as [|k ks IH]; intros s; [done|].
  simpl. rewrite IH. by destruct k.
Qed.

(** C2, as the code has it: the removals are attempted in the order info,
    input, output, code, up to the first one that fails; that failure ends
    the call with NotFoundTheme (theme out of range) or NotFoundTask
    (resource absent), the kinds after it are not attempted, the kinds
    before it stay removed and the theme index is left as it was. *)
Theorem delete_task_stops_at_first_failure (w : World) (theme_id task_id : Z)
    (pre post : list task_kind) (k : task_kind) (e : ErrorModel) :
  [task_info; task_input; task_output; task_code] = pre ++ k :: post →
  (∀ k', k' ∈ pre → removal_fails (store w) theme_id task_id k' = None) →
  removal_fails (store w) theme_id task_id k = Some e →
  delete_task task_id theme_id w =
    (Raise (HTTPException 404 e),
     mkWorld (remove_kinds pre (theme_id, task_id) (store w))
             (calls w ++ map (λ k', call_of Remove k' theme_id task_id) (pre ++ [k])))
  ∧ theme_index (store (delete_task task_id theme_id w).2) = theme_index (store w).
Proof.
  intros Hl Hpre Hk.
  assert (delete_task task_id theme_id w =
    (Raise (HTTPException 404 e),
     mkWorld (remove_kinds pre (theme_id, task_id) (store w))
             (calls w ++ map (λ k', call_of Remove k' theme_id task_id) (pre ++ [k]))))
    as ->; [|split; [done|apply remove_kinds_theme_index]].
  unfold removal_fails in *.
  destruct (py_index (theme_index (store w)) theme_id) as [th|] eqn:Ht.
  - rewrite (delete_task_valid _ _ _ th Ht). simpl.
    destruct pre as [|k1 [|k2 [|k3 [|k4 pre]]]]; simplify_eq/=.
    + destruct (infos _ !! _); by simplify_eq.
    + specialize (Hpre task_info ltac:(set_solver)). simpl in Hpre.
      destruct (infos _ !! _); [|done].
      destruct (inputs _ !! _); by simplify_eq.
    + pose proof (Hpre task_info ltac:(set_solver)) as H1.
      pose proof (Hpre task_input ltac:(set_solver)) as H2. simpl in *.
      destruct (infos _ !! _); [|done]. destruct (inputs _ !! _); [|done].
      destruct (outputs _ !! _); by simplify_eq.
    + pose proof (Hpre task_info ltac:(set_solver)) as H1.
      pose proof (Hpre task_input ltac:(set_solver)) as H2.
      pose proof (Hpre task_output ltac:(set_solver)) as H3. simpl in *.
      destruct (infos _ !! _); [|done]. destruct (inputs _ !! _); [|done].
      destruct (outputs _ !! _); [|done].
      destruct (codes _ !! _); by simplify_eq.
    + by destruct pre.
  - rewrite (delete_task_invalid _ _ _ Ht). simplify_eq.
    destruct pre as [|k1 pre]; simplify_eq/=; [done|].
    by specialize (Hpre task_info ltac:(set_solver)).
Qed.

Lemma delete_task_stops_at_first_failure_witness :
  delete_task 1 0 (mkWorld storage_torn []) =
    (Raise (HTTPException 404 NotFoundTask),
     mkWorld storage_torn [call_of Remove task_info 0 1])
  ∧ theme_index (store (delete_task 1 0 (mkWorld storage_torn [])).2) = [mkTheme 0 1].
Proof.
  apply (delete_task_stops_at_first_failure (mkWorld storage_torn []) 0 1
           [] [task_input; task_output; task_code] task_info NotFoundTask).
  - reflexivity.
  - intros k' H. by apply elem_of_nil in H.
  - reflexivity.
Defined.

(** The claim C2 as stated fails where the info resource is missing: the
    call ends on the first removal, and the removal of the input, output and
    code resources is never attempted: they are still stored. *)
Lemma delete_task_skips_later_kinds :
  let w' := (delete_task 1 0 (mkWorld storage_torn [])).2 in
  (delete_task 1 0 (mkWorld storage_torn [])).1 = Raise (HTTPException 404 NotFoundTask)
  ∧ calls w' = [call_of Remove task_info 0 1]
  ∧ (call_of Remove task_input 0 1 ∉ calls w')
  ∧ (call_of Remove task_output 0 1 ∉ calls w')
  ∧ (call_of Remove task_code 0 1 ∉ calls w')
  ∧ inputs (store w') !! (0, 1) = Some [VInt 1]
  ∧ outputs (store w') !! (0, 1) = Some [VInt 2]
  ∧ codes (store w') !! (0, 1) = Some [Byte.x41].
Proof.
  rewrite (delete_task_valid 0 1 (mkWorld storage_torn []) (mkTheme 0 1) eq_refl).
  simpl. repeat split; try done.
  all: intros H; apply list_elem_of_singleton in H; discriminate.
Qed.

Lemma remove_kinds_all j s :
  remove_kinds [task_info; task_input; task_output; task_code] j s
  = mkStorage (theme_index s) (delete j (infos s)) (delete j (inputs s))
              (delete j (outputs s)) (delete j (codes s)).
Proof. reflexivity. Qed.

(** C5: deleting a stored task of a theme of the index returns the empty
    response 204, removes the four resources of the task and of no other,
    decreases the count of the theme by exactly one, and a read of the same
    (theme_id, task_id) then fails NotFoundTask. *)
Theorem delete_task_removes_and_decrements (w : World) (theme_id task_id : Z)
    (th : Theme) :
  py_index (theme_index (store w)) theme_id = Some th →
  stored (store w) theme_id task_id →
  ∃ w',
    delete_task task_id theme_id w = (Return (mkResponse 204), w') ∧
    never_created (store w') theme_id task_id ∧
    same_elsewhere (store w) (store w') theme_id task_id ∧
    py_setitem (theme_index (store w)) theme_id (mkTheme (th_id th) (th_count th - 1))
    = Some (theme_index (store w')) ∧
    py_index (theme_index (store w')) theme_id
    = Some (mkTheme (th_id th) (th_count th - 1)) ∧
    (read_task theme_id task_id w').1 = Raise (HTTPException 404 NotFoundTask).
Proof.
  intros Ht Hst.
  destruct (py_setitem_is_Some _ _ (mkTheme (th_id th) (th_count th - 1)) _ Ht)
    as [themes Hs].
  rewrite (delete_task_valid _ _ _ th Ht). cbv zeta.
  destruct (Hst task_info) as [d Hd], (Hst task_input) as [a Ha],
    (Hst task_output) as [b Hb], (Hst task_code) as [c Hc].
  simpl in Hd, Ha, Hb, Hc. rewrite Hd, Ha, Hb, Hc, Hs.
  eexists. split; [reflexivity|].
  rewrite remove_kinds_all. simpl.
  pose proof (py_index_setitem _ _ _ _ Hs) as Ht'.
  repeat split; try done.
  - intros []; simpl; apply lookup_delete_eq.
  - intros [] j Hj; simpl; by apply lookup_delete_ne.
  - rewrite read_task_eq. simpl. rewrite Ht'. by rewrite lookup_delete_eq.
Qed.

Lemma delete_task_removes_and_decrements_witness :
  ∃ w',
    delete_task 1 0 (mkWorld storage_one []) = (Return (mkResponse 204), w') ∧
    never_created (store w') 0 1 ∧
    same_elsewhere storage_one (store w') 0 1 ∧
    py_setitem [mkTheme 0 1] 0 (mkTheme 0 0) = Some (theme_index (store w')) ∧
    py_index (theme_index (store w')) 0 = Some (mkTheme 0 0) ∧
    (read_task 0 1 w').1 = Raise (HTTPException 404 NotFoundTask).
Proof.
  apply (delete_task_removes_and_decrements (mkWorld storage_one []) 0 1 (mkTheme 0 1)).
  - reflexivity.
  - intros []; simpl; by eexists.
Defined.

(** ** Update *)

Lemma updated_elsewhere t i task b s : same_elsewhere s (updated t i task b s) t i.
Proof.
  intros k j Hj. unfold updated.
  destruct k; simpl.
  - destruct (has_info task); [|done].
    destruct (infos s !! (t, i)); [|done]. by apply lookup_insert_ne.
  - destruct (has_input task); [|done]. by apply lookup_insert_ne.
  - destruct (has_output task); [|done]. by apply lookup_insert_ne.
  - destruct (truthy_list b); [|done]. by apply lookup_insert_ne.
Qed.

Lemma update_calls_keys t i task b :
  Forall (λ c, call_theme c = Some t ∧ call_task c = Some i) (update_calls t i task b).
Proof.
  unfold update_calls.
  destruct (has_info task), (has_input task), (has_output task), (truthy_list b);
    simpl; repeat constructor.
Qed.

(** An update either goes through all its steps, or raises and leaves the
    storage as it was. *)
Lemma update_task_outcome t i task code w :
  (∃ b, code = Some b ∧
        update_task t i task code w =
          (Return (with_ids (Some i) (Some t) task),
           mkWorld (updated t i task b (store w)) (calls w ++ update_calls t i task b)))
  ∨ (∃ e cs, update_task t i task code w = (Raise e, mkWorld (store w) (calls w ++ cs))
             ∧ Forall (λ c, call_theme c = Some t ∧ call_task c = Some i) cs).
Proof.
  destruct code as [b|].
  - destruct (py_index (theme_index (store w)) t) as [th|] eqn:Ht.
    + rewrite (update_task_valid _ _ _ _ _ th Ht). cbv zeta.
      destruct (no_field task && negb (truthy_list b)).
      { right. exists (HTTPException 422 EmptyRequest), [].
        rewrite app_nil_r. by destruct w. }
      destruct (has_info task); [|left; eauto].
      destruct (infos (store w) !! (t, i)); [left; eauto|].
      right. eexists _, [_]. split; [reflexivity|]. by repeat constructor.
    + rewrite (update_task_invalid _ _ _ _ _ Ht).
      right.
      destruct (no_field task && negb (truthy_list b)).
      { exists (HTTPException 422 EmptyRequest), [].
        rewrite app_nil_r. by destruct w. }
      destruct (has_info task), (has_input task), (has_output task);
        eexists _, [_]; (split; [reflexivity|]); by repeat constructor.
  - right. exists AttributeError, []. rewrite app_nil_r. by destruct w.
Qed.

(** C4, at the request it names: with no field and no code upload the
    handler raises AttributeError on [code.read()], before the check for an
    empty request is reached, and not the EmptyRequest error; the storage is
    not touched. *)
Theorem update_task_without_upload_raises (w : World) (theme_id task_id : Z) :
  update_task theme_id task_id no_fields None w = (Raise AttributeError, w).
Proof. reflexivity. Qed.

(** With an upload that reads as empty bytes, the request without a field
    is rejected as the claim C4 says, and nothing is read or written. *)
Lemma update_task_empty_upload_rejected (w : World) (theme_id task_id : Z) :
  update_task theme_id task_id no_fields (Some []) w
  = (Raise (HTTPException 422 EmptyRequest), w).
Proof. reflexivity. Qed.

(** C8: the task a successful update returns is the request body with the
    identifiers of the path, whatever the storage holds: a field the request
    does not carry is absent from the response, and is not filled in from
    the stored record. *)
Theorem update_task_response_echoes_request (w w' : World) (theme_id task_id : Z)
    (task : TaskUpdate) (code : option UploadFile) (r : TaskUpdate) :
  update_task theme_id task_id task code w = (Return r, w') →
  r = with_ids (Some task_id) (Some theme_id) task
  ∧ (u_title task = None → u_title r = None)
  ∧ (u_description task = None → u_description r = None)
  ∧ (u_input task = None → u_input r = None)
  ∧ (u_output task = None → u_output r = None)
  ∧ ∀ w2 w2' r2, update_task theme_id task_id task code w2 = (Return r2, w2') → r2 = r.
Proof.
  intros H.
  assert (∀ v v' x, update_task theme_id task_id task code v = (Return x, v') →
                    x = with_ids (Some task_id) (Some theme_id) task) as Hecho.
  { intros v v' x Hx.
    destruct (update_task_outcome theme_id task_id task code v)
      as [(b & _ & Hb)|(e & cs & He & _)]; congruence. }
  pose proof (Hecho _ _ _ H) as ->.
  repeat split; try done.
Qed.

Lemma update_task_response_echoes_request_witness :
  let w := mkWorld storage_one [] in
  let task := title_only None None "B" in
  let res := update_task 0 1 task (Some []) w in
  let r := mkTaskUpdate (Some 1) (Some 0) (Some "B") None None None in
  infos (store w) !! (0, 1) = Some (mkTaskInfo 1 0 "A" "d")
  ∧ res = (Return r, res.2)
  ∧ (r = with_ids (Some 1) (Some 0) task
     ∧ (u_title task = None → u_title r = None)
     ∧ (u_description task = None → u_description r = None)
     ∧ (u_input task = None → u_input r = None)
     ∧ (u_output task = None → u_output r = None)
     ∧ ∀ w2 w2' r2, update_task 0 1 task (Some []) w2 = (Return r2, w2') → r2 = r).
Proof.
  intros w task res r.
  assert (res = (Return r, res.2)) as H by reflexivity.
  split; [reflexivity|]. split; [exact H|].
  exact (update_task_response_echoes_request w res.2 0 1 task (Some []) r H).
Defined.

(** C9: an update works on the identifiers of the path. The id and theme_id
    of the request body have no effect on it; every call it makes to the
    storage engine, and so every write, is for (theme_id, task_id) of the
    path; the response carries them; no other task and no theme is touched,
    and the id and theme_id recorded in the stored info stay what they
    were. *)
Theorem update_task_uses_path_ids (w : World) (theme_id task_id : Z)
    (task : TaskUpdate) (code : option UploadFile) :
  let res := update_task theme_id task_id task code w in
  (∀ id tid, update_task theme_id task_id (with_ids id tid task) code w = res)
  ∧ (∃ cs, calls res.2 = calls w ++ cs
           ∧ Forall (λ c, call_theme c = Some theme_id ∧ call_task c = Some task_id) cs)
  ∧ (∀ r, res.1 = Return r → u_id r = Some task_id ∧ u_theme_id r = Some theme_id)
  ∧ same_elsewhere (store w) (store res.2) theme_id task_id
  ∧ theme_index (store res.2) = theme_index (store w)
  ∧ (∀ d d', infos (store w) !! (theme_id, task_id) = Some d →
             infos (store res.2) !! (theme_id, task_id) = Some d' →
             i_id d' = i_id d ∧ i_theme_id d' = i_theme_id d).
Proof.
  intros res. split; [done|]. subst res.
  destruct (update_task_outcome theme_id task_id task code w)
    as [(b & _ & ->)|(e & cs & -> & Hcs)]; simpl.
  - split; [eexists; split; [done|apply update_calls_keys]|].
    split; [by intros r [= <-]|].
    split; [apply updated_elsewhere|].
    split; [done|].
    intros d d' Hd. unfold updated. simpl.
    destruct (has_info task); rewrite ?Hd, ?lookup_insert_eq; by intros [= <-].
  - split; [eauto|]. split; [done|]. split; [done|]. split; [done|].
    intros d d' Hd. rewrite Hd. by intros [= <-].
Qed.

Lemma updated_title_only t i oid otid title b s :
  truthy_list b = false →
  updated t i (title_only oid otid title) b s
  = mkStorage (theme_index s)
      (if truthy_str title then
         match infos s !! (t, i) with
         | Some d =>
             <[(t, i) := mkTaskInfo (i_id d) (i_theme_id d) title (i_description d)]>
               (infos s)
         | None => infos s
         end
       else infos s)
      (inputs s) (outputs s) (codes s).
Proof.
  intros Hb. unfold updated, title_only, has_info, has_input, has_output, overlay.
  simpl. rewrite Hb, orb_false_r.
  by destruct (truthy_str title).
Qed.

(** C3: an update that supplies only a title (no description, input or
    output, and no code upload or one that reads as empty) leaves the theme
    index, the input, output and code resources and the info of every other
    task as they were; the stored info of the task keeps its description
    (and identifiers), and its title is the one supplied or the stored one.
    When the task is stored, the title is not empty and the upload is there,
    the update succeeds and the stored title is the one supplied. *)
Theorem update_title_only_keeps_rest (w : World) (theme_id task_id : Z)
    (id tid : option Z) (title : string) (code : option UploadFile) :
  truthy_opt truthy_list code = false →
  let j := (theme_id, task_id) in
  let res := update_task theme_id task_id (title_only id tid title) code w in
  theme_index (store res.2) = theme_index (store w)
  ∧ inputs (store res.2) = inputs (store w)
  ∧ outputs (store res.2) = outputs (store w)
  ∧ codes (store res.2) = codes (store w)
  ∧ (∀ j', j' ≠ j → infos (store res.2) !! j' = infos (store w) !! j')
  ∧ match infos (store w) !! j with
    | None => infos (store res.2) !! j = None
    | Some d =>
        ∃ d', infos (store res.2) !! j = Some d'
              ∧ i_description d' = i_description d
              ∧ i_id d' = i_id d ∧ i_theme_id d' = i_theme_id d
              ∧ (i_title d' = title ∨ i_title d' = i_title d)
    end
  ∧ (∀ d, code = Some [] → truthy_str title = true →
          is_Some (py_index (theme_index (store w)) theme_id) →
          infos (store w) !! j = Some d →
          res.1 = Return (title_only (Some task_id) (Some theme_id) title)
          ∧ infos (store res.2) !! j
            = Some (mkTaskInfo (i_id d) (i_theme_id d) title (i_description d))).
Proof.
  intros Hc j res. subst j.
  assert (theme_index (store res.2) = theme_index (store w)
          ∧ inputs (store res.2) = inputs (store w)
          ∧ outputs (store res.2) = outputs (store w)
          ∧ codes (store res.2) = codes (store w)
          ∧ (store res.2 = store w ∨
             ∃ d, infos (store w) !! (theme_id, task_id) = Some d ∧
                  infos (store res.2)
                  = <[(theme_id, task_id) := mkTaskInfo (i_id d) (i_theme_id d) title (i_description d)]>
                      (infos (store w)))) as (H1 & H2 & H3 & H4 & H5).
  { subst res.
    destruct (update_task_outcome theme_id task_id (title_only id tid title) code w)
      as [(b & -> & ->)|(e & cs & -> & _)]; [|simpl; by eauto 10].
    simpl in Hc. cbn [snd store]. rewrite (updated_title_only _ _ _ _ _ _ _ Hc). simpl.
    repeat split; try done.
    destruct (truthy_str title); [|left; by destruct (store w)].
    destruct (infos (store w) !! (theme_id, task_id)) as [d|] eqn:Hd; [by eauto|].
    left. by destruct (store w). }
  do 4 (split; [done|]). split; [|split].
  - intros j' Hj'. destruct H5 as [->|(d & _ & ->)]; [done|].
    by apply lookup_insert_ne.
  - destruct H5 as [->|(d & Hd & ->)].
    + destruct (infos (store w) !! (theme_id, task_id)) as [d|]; [|done].
      exists d. repeat split; auto.
    + rewrite Hd, lookup_insert_eq. eexists. split; [done|]. simpl.
      repeat split; auto.
  - intros d -> Htitle [th Hth] Hd. subst res. clear H1 H2 H3 H4 H5.
    rewrite (update_task_valid _ _ _ _ _ th Hth). cbv zeta.
    rewrite (updated_title_only _ _ _ _ _ [] _ eq_refl).
    unfold no_field, has_info. simpl. rewrite Htitle, Hd. simpl.
    split; [done|]. apply lookup_insert_eq.
Qed.

Lemma update_title_only_keeps_rest_witness :
  let w := mkWorld storage_one [] in
  let res := update_task 0 1 (title_only None None "B") (Some []) w in
  truthy_opt truthy_list (Some ([] : UploadFile)) = false
  ∧ res.1 = Return (title_only (Some 1) (Some 0) "B")
  ∧ infos (store res.2) !! (0, 1) = Some (mkTaskInfo 1 0 "B" "d")
  ∧ inputs (store res.2) = inputs storage_one
  ∧ outputs (store res.2) = outputs storage_one
  ∧ codes (store res.2) = codes storage_one.
Proof.
  intros w res. split; [reflexivity|].
  destruct (update_title_only_keeps_rest w 0 1 None None "B" (Some []) eq_refl)
    as (_ & H2 & H3 & H4 & _ & _ & H7).
  destruct (H7 (mkTaskInfo 1 0 "A" "d") eq_refl eq_refl
              (ex_intro _ (mkTheme 0 1) eq_refl) eq_refl) as [Hr Hi].
  repeat split; assumption.
Defined.

(** *** Empty values *)

Lemma truthy_absent_if_empty {A} (f : A → bool) o :
  truthy_opt f (absent_if_empty f o) = truthy_opt f o.
Proof. destruct o as [x|]; [|done]. simpl. by destruct (f x) eqn:E; simpl. Qed.

Lemma or_else_str_absent_if_empty o y :
  or_else_str (absent_if_empty truthy_str o) y = or_else_str o y.
Proof. destruct o as [x|]; [|done]. simpl. by destruct (truthy_str x) eqn:E; simpl; rewrite ?E. Qed.

Lemma has_info_without_empty task : has_info (without_empty task) = has_info task.
Proof. unfold has_info. simpl. by rewrite !truthy_absent_if_empty. Qed.

Lemma has_input_without_empty task : has_input (without_empty task) = has_input task.
Proof. unfold has_input. simpl. by rewrite !truthy_absent_if_empty. Qed.

Lemma has_output_without_empty task : has_output (without_empty task) = has_output task.
Proof. unfold has_output. simpl. by rewrite !truthy_absent_if_empty. Qed.

Lemma no_field_without_empty task : no_field (without_empty task) = no_field task.
Proof. unfold no_field. simpl. by rewrite !truthy_absent_if_empty. Qed.

Lemma updated_without_empty t i task b s :
  updated t i (without_empty task) b s = updated t i task b s.
Proof.
  unfold updated.
  rewrite has_info_without_empty, has_input_without_empty, has_output_without_empty.
  unfold overlay, without_empty at 1 2 3 4.
  cbn [u_title u_description u_input u_output].
  f_equal.
  - destruct (has_info task); [|done].
    destruct (infos s !! (t, i)); [|done].
    by rewrite !or_else_str_absent_if_empty.
  - unfold has_input. destruct (u_input task) as [[|x l]|]; done.
  - unfold has_output. destruct (u_output task) as [[|x l]|]; done.
Qed.

Lemma update_calls_without_empty t i task b :
  update_calls t i (without_empty task) b = update_calls t i task b.
Proof.
  unfold update_calls.
  by rewrite has_info_without_empty, has_input_without_empty, has_output_without_empty.
Qed.

(** Leaving the empty fields out of the request changes neither the
    storage nor the calls nor the outcome of an update; in the response the
    fields left out are absent. *)
Lemma update_task_without_empty t i task code w :
  update_task t i (without_empty task) code w
  = (map_result without_empty (update_task t i task code w).1,
     (update_task t i task code w).2).
Proof.
  destruct code as [b|]; [|done].
  destruct (py_index (theme_index (store w)) t) as [th|] eqn:Ht.
  - rewrite !(update_task_valid _ _ _ _ _ th Ht). cbv zeta.
    rewrite no_field_without_empty, has_info_without_empty,
      updated_without_empty, update_calls_without_empty.
    destruct (no_field task && negb (truthy_list b)); [done|].
    destruct (has_info task); [|done].
    by destruct (infos (store w) !! (t, i)).
  - rewrite !(update_task_invalid _ _ _ _ _ Ht).
    rewrite no_field_without_empty, has_info_without_empty,
      has_input_without_empty, has_output_without_empty.
    destruct (no_field task && negb (truthy_list b)); [done|].
    by destruct (has_info task), (has_input task), (has_output task).
Qed.

(** No field of a stored task is made empty by [updated]: a resource that
    differs from the one stored before holds the value of the request, which
    is not empty. *)
Lemma updated_infos_not_emptied t i task b s j d' :
  infos (updated t i task b s) !! j = Some d' →
  infos s !! j = Some d' ∨
  ∃ d, infos s !! j = Some d
       ∧ (i_title d' = i_title d ∨ truthy_str (i_title d') = true)
       ∧ (i_description d' = i_description d ∨ truthy_str (i_description d') = true).
Proof.
  unfold updated. simpl. destruct (has_info task); [|by left].
  destruct (infos s !! (t, i)) as [d|] eqn:Hd; [|by left].
  destruct (decide (j = (t, i))) as [->|Hj].
  - rewrite lookup_insert_eq. intros [= <-]. right. exists d. split; [done|].
    unfold overlay, or_else_str. simpl.
    split.
    + destruct (u_title task) as [x|]; [|by left].
      destruct (truthy_str x) eqn:E; auto.
    + destruct (u_description task) as [x|]; [|by left].
      destruct (truthy_str x) eqn:E; auto.
  - rewrite lookup_insert_ne by done. by left.
Qed.

Lemma updated_inputs_not_emptied t i task b s j l :
  inputs (updated t i task b s) !! j = Some l →
  inputs s !! j = Some l ∨ truthy_list l = true.
Proof.
  unfold updated, has_input. simpl.
  destruct (u_input task) as [[|x v]|]; simpl; auto.
  destruct (decide (j = (t, i))) as [->|Hj].
  - rewrite lookup_insert_eq. intros [= <-]. by right.
  - rewrite lookup_insert_ne by done. by left.
Qed.

Lemma updated_outputs_not_emptied t i task b s j l :
  outputs (updated t i task b s) !! j = Some l →
  outputs s !! j = Some l ∨ truthy_list l = true.
Proof.
  unfold updated, has_output. simpl.
  destruct (u_output task) as [[|x v]|]; simpl; auto.
  destruct (decide (j = (t, i))) as [->|Hj].
  - rewrite lookup_insert_eq. intros [= <-]. by right.
  - rewrite lookup_insert_ne by done. by left.
Qed.

Lemma updated_codes_not_emptied t i task b s j l :
  codes (updated t i task b s) !! j = Some l →
  codes s !! j = Some l ∨ truthy_list l = true.
Proof.
  unfold updated. simpl.
  destruct b as [|x v]; simpl; auto.
  destruct (decide (j = (t, i))) as [->|Hj].
  - rewrite lookup_insert_eq. intros [= <-]. by right.
  - rewrite lookup_insert_ne by done. by left.
Qed.

Lemma or_else_str_falsy o y : truthy_opt truthy_str o = false → or_else_str o y = y.
Proof. destruct o as [x|]; [|done]. simpl. by intros ->. Qed.

(** C10: presence of a field in an update is its truthiness. An empty title
    or description, an empty input or output list and an upload that reads
    as empty bytes are not written and the stored value is retained; an
    update with the empty fields of the body left out does the same to the
    storage and ends the same way; whatever the request, a stored value that
    an update changes is changed to a value that is not empty; and a request
    with only such empty values is rejected as an empty request. *)
Theorem update_task_empty_values_are_absent (w : World) (theme_id task_id : Z)
    (task : TaskUpdate) (code : option UploadFile) :
  let res := update_task theme_id task_id task code w in
  let j := (theme_id, task_id) in
  update_task theme_id task_id (without_empty task) code w
  = (map_result without_empty res.1, res.2)
  ∧ (truthy_opt truthy_str (u_title task) = false →
     ∀ d d', infos (store w) !! j = Some d → infos (store res.2) !! j = Some d' →
             i_title d' = i_title d)
  ∧ (truthy_opt truthy_str (u_description task) = false →
     ∀ d d', infos (store w) !! j = Some d → infos (store res.2) !! j = Some d' →
             i_description d' = i_description d)
  ∧ (truthy_opt truthy_list (u_input task) = false →
     inputs (store res.2) = inputs (store w))
  ∧ (truthy_opt truthy_list (u_output task) = false →
     outputs (store res.2) = outputs (store w))
  ∧ (truthy_opt truthy_list code = false → codes (store res.2) = codes (store w))
  ∧ (∀ j' d', infos (store res.2) !! j' = Some d' →
       infos (store w) !! j' = Some d' ∨
       ∃ d, infos (store w) !! j' = Some d
            ∧ (i_title d' = i_title d ∨ truthy_str (i_title d') = true)
            ∧ (i_description d' = i_description d
               ∨ truthy_str (i_description d') = true))
  ∧ (∀ j' l, inputs (store res.2) !! j' = Some l →
       inputs (store w) !! j' = Some l ∨ truthy_list l = true)
  ∧ (∀ j' l, outputs (store res.2) !! j' = Some l →
       outputs (store w) !! j' = Some l ∨ truthy_list l = true)
  ∧ (∀ j' l, codes (store res.2) !! j' = Some l →
       codes (store w) !! j' = Some l ∨ truthy_list l = true)
  ∧ (no_field task = true →
     update_task theme_id task_id task (Some []) w
     = (Raise (HTTPException 422 EmptyRequest), w)).
Proof.
  intros res j. subst res j.
  split; [apply update_task_without_empty|].
  destruct (update_task_outcome theme_id task_id task code w)
    as [(b & -> & ->)|(e & cs & -> & _)]; cbn [fst snd store].
  - split; [|split; [|split; [|split; [|split]]]].
    + intros Hf d d' Hd. unfold updated. simpl. rewrite Hd.
      destruct (has_info task); rewrite ?Hd, ?lookup_insert_eq; intros [= <-]; [|done].
      simpl. by apply or_else_str_falsy.
    + intros Hf d d' Hd. unfold updated. simpl. rewrite Hd.
      destruct (has_info task); rewrite ?Hd, ?lookup_insert_eq; intros [= <-]; [|done].
      simpl. by apply or_else_str_falsy.
    + intros Hf. unfold updated, has_input. simpl. by rewrite Hf.
    + intros Hf. unfold updated, has_output. simpl. by rewrite Hf.
    + simpl. intros Hf. unfold updated. simpl. by rewrite Hf.
    + split; [intros ??; apply updated_infos_not_emptied|].
      split; [intros ??; apply updated_inputs_not_emptied|].
      split; [intros ??; apply updated_outputs_not_emptied|].
      split; [intros ??; apply updated_codes_not_emptied|].
      intros H. by apply update_task_empty.
  - split; [|split; [|split; [|split; [|split]]]]; try done.
    + intros _ d d' Hd. rewrite Hd. by intros [= <-].
    + intros _ d d' Hd. rewrite Hd. by intros [= <-].
    + split; [by left|]. split; [by left|]. split; [by left|]. split; [by left|].
      intros H. by apply update_task_empty.
Qed.

(** ** Tasks and themes that do not exist *)

(** C7, as the code has it: for a task that was never created under a theme
    of the index (NotFoundTask), and for a theme_id out of the range of the
    index (NotFoundTheme), a read and a delete fail with that error, and so
    does an update that carries a title or a description that is not empty;
    an update that carries nothing that is not empty fails with
    EmptyRequest before anything is looked up. In each of these cases the
    storage is left as it was. *)
Theorem not_found_leaves_storage_unchanged (w : World) (theme_id task_id : Z)
    (e : ErrorModel) :
  missing (store w) theme_id task_id e →
  ((read_task theme_id task_id w).1 = Raise (HTTPException 404 e)
   ∧ store (read_task theme_id task_id w).2 = store w)
  ∧ ((delete_task task_id theme_id w).1 = Raise (HTTPException 404 e)
     ∧ store (delete_task task_id theme_id w).2 = store w)
  ∧ (∀ task b, has_info task = true →
       (update_task theme_id task_id task (Some b) w).1 = Raise (HTTPException 404 e)
       ∧ store (update_task theme_id task_id task (Some b) w).2 = store w)
  ∧ (∀ task b, no_field task = true → truthy_list b = false →
       update_task theme_id task_id task (Some b) w
       = (Raise (HTTPException 422 EmptyRequest), w)).
Proof.
  unfold missing. intros Hm.
  assert (∀ task, has_info task = true → no_field task = false) as Hnf.
  { intros task. unfold has_info, no_field.
    destruct (truthy_opt truthy_str (u_title task)),
      (truthy_opt truthy_str (u_description task)); done. }
  destruct (py_index (theme_index (store w)) theme_id) as [th|] eqn:Ht.
  - destruct Hm as [Hn ->].
    pose proof (Hn task_info) as Hi. simpl in Hi.
    split; [|split; [|split]].
    + rewrite read_task_eq. cbv zeta. by rewrite Ht, Hi.
    + rewrite (delete_task_valid _ _ _ th Ht). cbv zeta. by rewrite Hi.
    + intros task b Hinfo. rewrite (update_task_valid _ _ _ _ _ th Ht). cbv zeta.
      by rewrite (Hnf _ Hinfo), Hinfo, Hi.
    + intros task b. apply update_task_empty.
  - subst e. split; [|split; [|split]].
    + rewrite read_task_eq. cbv zeta. by rewrite Ht.
    + by rewrite (delete_task_invalid _ _ _ Ht).
    + intros task b Hinfo. rewrite (update_task_invalid _ _ _ _ _ Ht).
      by rewrite (Hnf _ Hinfo), Hinfo.
    + intros task b. apply update_task_empty.
Qed.

Lemma not_found_leaves_storage_unchanged_witness :
  let w := mkWorld storage_ex [] in
  missing storage_ex 1 7 NotFoundTask
  ∧ (read_task 1 7 w).1 = Raise (HTTPException 404 NotFoundTask)
  ∧ (delete_task 7 1 w).1 = Raise (HTTPException 404 NotFoundTask)
  ∧ store (delete_task 7 1 w).2 = storage_ex.
Proof.
  intros w.
  assert (missing storage_ex 1 7 NotFoundTask) as Hm.
  { unfold missing. simpl. split; [intros []; reflexivity|reflexivity]. }
  destruct (not_found_leaves_storage_unchanged w 1 7 NotFoundTask Hm)
    as ((Hr & _) & (Hd & Hs) & _).
  split; [exact Hm|]. split; [exact Hr|]. split; [exact Hd|exact Hs].
Defined.

(** The claim C7 as stated fails at an update that carries nothing: for a
    task that was never created under a theme of the index it is rejected
    as an empty request, not as a task that is not found. *)
Lemma update_task_empty_request_on_missing_task :
  let w := mkWorld storage_ex [] in
  is_Some (py_index (theme_index storage_ex) 1)
  ∧ never_created storage_ex 1 7
  ∧ (update_task 1 7 no_fields (Some []) w).1 = Raise (HTTPException 422 EmptyRequest)
  ∧ (update_task 1 7 no_fields (Some []) w).1 ≠ Raise (HTTPException 404 NotFoundTask).
Proof.
  intros w. split; [by eexists|]. split; [intros []; reflexivity|].
  split; [reflexivity|]. discriminate.
Qed.

(** What the amended C7 leaves out: an update that carries only an input, an
    output or a code writes the resource without looking the task up, so
    that for a task that was never created under a theme of the index it
    succeeds and leaves a resource of a task that has no info. *)
Lemma update_task_writes_missing_task (w : World) (theme_id task_id : Z)
    (th : Theme) (task : TaskUpdate) (b : list Byte.byte) :
  py_index (theme_index (store w)) theme_id = Some th →
  has_info task = false → has_input task = true →
  (update_task theme_id task_id task (Some b) w).1
  = Return (with_ids (Some task_id) (Some theme_id) task)
  ∧ inputs (store (update_task theme_id task_id task (Some b) w).2) !! (theme_id, task_id)
    = u_input task.
Proof.
  intros Ht Hi Hn. rewrite (update_task_valid _ _ _ _ _ th Ht). cbv zeta.
  unfold no_field. fold (has_info task) (has_input task). rewrite Hi, Hn. simpl.
  split; [done|]. unfold updated. simpl. rewrite Hn, lookup_insert_eq.
  unfold has_input in Hn. by destruct (u_input task).
Qed.

(** The same, at a task that was never created. *)
Lemma update_task_input_only_on_missing_task :
  let w := mkWorld storage_ex [] in
  let task := mkTaskUpdate None None None None (Some [VInt 3]) None in
  never_created storage_ex 1 7
  ∧ (update_task 1 7 task (Some []) w).1 = Return (with_ids (Some 7) (Some 1) task)
  ∧ inputs (store (update_task 1 7 task (Some []) w).2) !! (1, 7) = Some [VInt 3]
  ∧ infos (store (update_task 1 7 task (Some []) w).2) !! (1, 7) = None.
Proof.
  intros w task. split; [intros []; reflexivity|].
  repeat split; reflexivity.
Qed.

(** And for a theme_id out of the range of the index, an update that carries
    only an input ends on the IndexError of the write, which no clause of
    the handler catches. *)
Lemma update_task_input_only_on_missing_theme :
  let task := mkTaskUpdate None None None None (Some [VInt 3]) None in
  (update_task 5 7 task (Some []) (mkWorld storage_ex [])).1 = Raise IndexError.
Proof. reflexivity. Qed.

(** * Composing the handlers *)

Lemma storage_eq s s' :
  theme_index s = theme_index s' → (∀ k, files k s = files k s') → s = s'.
Proof.
  intros Ht Hk. destruct s, s'. simpl in *.
  pose proof (Hk task_info). pose proof (Hk task_input).
  pose proof (Hk task_output). pose proof (Hk task_code). simpl in *. congruence.
Qed.

(** A creation in a theme of the index, by the storage it leaves. *)
Lemma create_task_world t task code w th :
  py_index (theme_index (store w)) t = Some th →
  let n := th_count th + 1 in
  ∃ w',
    create_task t task code w = (Return (task_of n t task), w') ∧
    (∀ k, files k (store w')
          = <[(t, n) := create_content k n t task code]> (files k (store w))) ∧
    py_setitem (theme_index (store w)) t (mkTheme (th_id th) n)
    = Some (theme_index (store w')) ∧
    py_index (theme_index (store w')) t = Some (mkTheme (th_id th) n).
Proof.
  intros Ht n.
  destruct (create_task_valid t task code w th Ht) as (themes & Hs & Hc).
  eexists. split; [exact Hc|]. simpl.
  split; [by intros []|]. split; [done|]. by apply py_index_setitem in Hs.
Qed.

(** The deletion of a stored task of a theme of the index, by the storage
    it leaves. *)
Lemma delete_task_world t i w th :
  py_index (theme_index (store w)) t = Some th →
  stored (store w) t i →
  ∃ w',
    delete_task i t w = (Return (mkResponse 204), w') ∧
    (∀ k, files k (store w') = delete (t, i) (files k (store w))) ∧
    py_setitem (theme_index (store w)) t (mkTheme (th_id th) (th_count th - 1))
    = Some (theme_index (store w')) ∧
    py_index (theme_index (store w')) t = Some (mkTheme (th_id th) (th_count th - 1)).
Proof.
  intros Ht Hst.
  destruct (py_setitem_is_Some _ _ (mkTheme (th_id th) (th_count th - 1)) _ Ht)
    as [themes Hs].
  rewrite (delete_task_valid _ _ _ th Ht). cbv zeta.
  destruct (Hst task_info) as [d Hd], (Hst task_input) as [a Ha],
    (Hst task_output) as [b Hb], (Hst task_code) as [c Hc].
  simpl in Hd, Ha, Hb, Hc. rewrite Hd, Ha, Hb, Hc, Hs.
  eexists. split; [reflexivity|]. rewrite remove_kinds_all. simpl.
  split; [by intros []|]. split; [done|]. by apply py_index_setitem in Hs.
Qed.

(** A read, by the resources it opens. *)
Lemma read_task_stored t i w th d a b :
  py_index (theme_index (store w)) t = Some th →
  infos (store w) !! (t, i) = Some d →
  inputs (store w) !! (t, i) = Some a →
  outputs (store w) !! (t, i) = Some b →
  ∃ w', read_task t i w = (Return (Task_of_info d a b), w') ∧ store w' = store w.
Proof.
  intros Ht Hd Ha Hb. rewrite read_task_eq. cbv zeta. rewrite Ht, Hd, Ha, Hb.
  by eexists.
Qed.

(** X1: a task created in a theme of the index reads back as the task the
    creation returned: the identifier assigned and the title, description,
    input and output of the payload. *)
Theorem create_then_read (w : World) (theme_id : Z) (th : Theme)
    (task : TaskCreate) (code : UploadFile) :
  py_index (theme_index (store w)) theme_id = Some th →
  ∃ w',
    (a <- create_task theme_id task code ;; read_task theme_id (t_id a)) w
    = (Return (task_of (th_count th + 1) theme_id task), w').
Proof.
  intros Ht.
  destruct (create_task_world theme_id task code w th Ht) as (w1 & Hc & Hf & _ & Ht1).
  unfold bind. rewrite Hc. simpl.
  pose proof (Hf task_info) as Hi. pose proof (Hf task_input) as Ha.
  pose proof (Hf task_output) as Hb. simpl in Hi, Ha, Hb.
  destruct (read_task_stored theme_id (th_count th + 1) w1 _ _ _ _ Ht1
              ltac:(rewrite Hi; apply lookup_insert_eq)
              ltac:(rewrite Ha; apply lookup_insert_eq)
              ltac:(rewrite Hb; apply lookup_insert_eq)) as (w' & Hr & _).
  rewrite Hr. by eexists.
Qed.

Lemma create_then_read_witness :
  ∃ w',
    (a <- create_task 1 (mkTaskCreate "A" "d" [VInt 1] [VInt 2]) [Byte.x41] ;;
     read_task 1 (t_id a)) (mkWorld storage_ex [])
    = (Return (mkTask 1 1 "A" "d" [VInt 1] [VInt 2]), w').
Proof.
  exact (create_then_read (mkWorld storage_ex []) 1 (mkTheme 1 0)
           (mkTaskCreate "A" "d" [VInt 1] [VInt 2]) [Byte.x41] eq_refl).
Defined.

(** X2: a creation under a theme_id out of the range of the index fails
    with NotFoundTheme after the one read of the index: no resource is
    saved and the storage is left as it was. *)
Theorem create_task_unknown_theme (w : World) (theme_id : Z)
    (task : TaskCreate) (code : UploadFile) :
  py_index (theme_index (store w)) theme_id = None →
  (create_task theme_id task code w).1 = Raise (HTTPException 404 NotFoundTheme)
  ∧ store (create_task theme_id task code w).2 = store w
  ∧ ∃ cs, calls (create_task theme_id task code w).2 = calls w ++ cs
          ∧ Forall (λ c, call_op c ≠ Save) cs.
Proof.
  intros Ht. rewrite (create_task_invalid _ _ _ _ Ht). simpl.
  split; [done|]. split; [done|]. eexists. split; [done|]. by repeat constructor.
Qed.

Lemma create_task_unknown_theme_witness :
  (create_task 2 (mkTaskCreate "A" "d" [] []) [] (mkWorld storage_ex [])).1
  = Raise (HTTPException 404 NotFoundTheme)
  ∧ store (create_task 2 (mkTaskCreate "A" "d" [] []) [] (mkWorld storage_ex [])).2
    = storage_ex.
Proof.
  destruct (create_task_unknown_theme (mkWorld storage_ex []) 2
              (mkTaskCreate "A" "d" [] []) [] eq_refl) as (H1 & H2 & _).
  split; assumption.
Defined.

Lemma py_setitem_pos {A} (l l' : list A) i x :
  py_setitem l i x = Some l' →
  ∃ p, py_pos (length l) i = Some p ∧ l' = <[p := x]> l.
Proof.
  unfold py_setitem. intros H.
  destruct (py_pos (length l) i) as [p|]; simpl in H; [|done].
  inversion H. eauto.
Qed.

(** Putting the former entry back at [l[i]] gives the former list. *)
Lemma py_setitem_back {A} (l l' : list A) i x y :
  py_index l i = Some y → py_setitem l i x = Some l' → py_setitem l' i y = Some l.
Proof.
  intros Hy Hs. destruct (py_setitem_pos _ _ _ _ Hs) as (p & Hp & ->).
  unfold py_index in Hy. rewrite Hp in Hy. simpl in Hy.
  unfold py_setitem. rewrite length_insert, Hp. simpl.
  by rewrite list_insert_insert_eq, list_insert_id.
Qed.

(** Assigning to [l[i]] leaves the entry of every other position. *)
Lemma py_index_setitem_other {A} (l l' : list A) i j x :
  py_setitem l i x = Some l' →
  py_pos (length l) i ≠ py_pos (length l) j →
  py_index l' j = py_index l j.
Proof.
  intros Hs Hne. destruct (py_setitem_pos _ _ _ _ Hs) as (p & Hp & ->).
  unfold py_index. rewrite length_insert.
  destruct (py_pos (length l) j) as [q|] eqn:Hq; simpl; [|done].
  apply list_lookup_insert_ne. congruence.
Qed.

(** X3: a creation touches the resources of the created task only, and of
    the theme index the entry of its theme only, of which it keeps the id:
    every other task and the entry of every other theme are as before. *)
Theorem create_task_frame (w : World) (theme_id : Z) (th : Theme)
    (task : TaskCreate) (code : UploadFile) :
  py_index (theme_index (store w)) theme_id = Some th →
  let s' := store (create_task theme_id task code w).2 in
  same_elsewhere (store w) s' theme_id (th_count th + 1)
  ∧ length (theme_index s') = length (theme_index (store w))
  ∧ (th_id <$> py_index (theme_index s') theme_id) = Some (th_id th)
  ∧ ∀ t', py_pos (length (theme_index (store w))) t'
          ≠ py_pos (length (theme_index (store w))) theme_id →
          py_index (theme_index s') t' = py_index (theme_index (store w)) t'.
Proof.
  intros Ht s'. subst s'.
  destruct (create_task_world theme_id task code w th Ht) as (w1 & -> & Hf & Hs & Ht1).
  simpl. split; [|split; [|split]].
  - intros k j Hj. rewrite Hf. by apply lookup_insert_ne.
  - destruct (py_setitem_pos _ _ _ _ Hs) as (p & _ & ->). apply length_insert.
  - by rewrite Ht1.
  - intros t' Hne. by apply (py_index_setitem_other _ _ _ _ _ Hs).
Qed.

Lemma create_task_frame_witness :
  let s' := store (create_task 0 (mkTaskCreate "A" "d" [] []) []
                     (mkWorld storage_one [])).2 in
  py_index (theme_index storage_one) 0 = Some (mkTheme 0 1)
  ∧ same_elsewhere storage_one s' 0 2.
Proof.
  intros s'. split; [reflexivity|].
  exact (proj1 (create_task_frame (mkWorld storage_one []) 0 (mkTheme 0 1)
                  (mkTaskCreate "A" "d" [] []) [] eq_refl)).
Defined.

(** A task just created has its four resources. *)
Lemma create_task_stored t task code w w' n :
  (∀ k, files k (store w')
        = <[(t, n) := create_content k n t task code]> (files k (store w))) →
  stored (store w') t n.
Proof. intros Hf k. rewrite Hf, lookup_insert_eq. by eexists. Qed.

(** X4: deleting the task a creation has just made undoes the creation: when
    the identifier count + 1 had no resource before, the storage (the
    resources of every task and the whole theme index) is again what it was
    before the creation. *)
Theorem create_then_delete_restores (w : World) (theme_id : Z) (th : Theme)
    (task : TaskCreate) (code : UploadFile) :
  py_index (theme_index (store w)) theme_id = Some th →
  never_created (store w) theme_id (th_count th + 1) →
  ∃ w',
    (a <- create_task theme_id task code ;; delete_task (t_id a) theme_id) w
    = (Return (mkResponse 204), w')
    ∧ store w' = store w.
Proof.
  intros Ht Hn.
  destruct (create_task_world theme_id task code w th Ht) as (w1 & Hc & Hf & Hs & Ht1).
  destruct (delete_task_world theme_id (th_count th + 1) w1 _ Ht1
              (create_task_stored _ _ _ _ _ _ Hf)) as (w2 & Hd & Hf2 & Hs2 & _).
  exists w2. unfold bind. rewrite Hc. simpl. split; [exact Hd|].
  apply storage_eq.
  - simpl in Hs2. replace (th_count th + 1 - 1) with (th_count th) in Hs2 by lia.
    pose proof (py_setitem_back _ _ _ _ _ Ht Hs) as Hb.
    destruct th. simpl in *. congruence.
  - intros k. rewrite Hf2, Hf. apply delete_insert_id, Hn.
Qed.

Lemma create_then_delete_restores_witness :
  ∃ w',
    (a <- create_task 1 (mkTaskCreate "A" "d" [VInt 1] [VInt 2]) [Byte.x41] ;;
     delete_task (t_id a) 1) (mkWorld storage_ex [])
    = (Return (mkResponse 204), w')
    ∧ store w' = storage_ex.
Proof.
  apply (create_then_delete_restores (mkWorld storage_ex []) 1 (mkTheme 1 0)
           (mkTaskCreate "A" "d" [VInt 1] [VInt 2]) [Byte.x41]).
  - reflexivity.
  - intros []; reflexivity.
Defined.

(** X5: a second deletion of the same task fails with NotFoundTask at the
    removal of the info resource: it changes nothing, and the count of the
    theme, decreased once by the first deletion, is not decreased again. *)
Theorem delete_twice (w : World) (theme_id task_id : Z) (th : Theme) :
  py_index (theme_index (store w)) theme_id = Some th →
  stored (store w) theme_id task_id →
  ∃ w1 w2,
    delete_task task_id theme_id w = (Return (mkResponse 204), w1)
    ∧ delete_task task_id theme_id w1 = (Raise (HTTPException 404 NotFoundTask), w2)
    ∧ store w2 = store w1
    ∧ py_index (theme_index (store w2)) theme_id
      = Some (mkTheme (th_id th) (th_count th - 1)).
Proof.
  intros Ht Hst.
  destruct (delete_task_world theme_id task_id w th Ht Hst) as (w1 & Hd & Hf & _ & Ht1).
  exists w1. eexists. split; [exact Hd|].
  rewrite (delete_task_valid _ _ _ _ Ht1). cbv zeta.
  pose proof (Hf task_info) as Hi. simpl in Hi. rewrite Hi, lookup_delete_eq.
  simpl. split; [reflexivity|]. split; [reflexivity|]. exact Ht1.
Qed.

Lemma delete_twice_witness :
  ∃ w1 w2,
    delete_task 1 0 (mkWorld storage_one []) = (Return (mkResponse 204), w1)
    ∧ delete_task 1 0 w1 = (Raise (HTTPException 404 NotFoundTask), w2)
    ∧ store w2 = store w1
    ∧ py_index (theme_index (store w2)) 0 = Some (mkTheme 0 0).
Proof.
  apply (delete_twice (mkWorld storage_one []) 0 1 (mkTheme 0 1)).
  - reflexivity.
  - intros []; simpl; by eexists.
Defined.

(** X6: identifiers are reused. After two creations and the deletion of the
    first of the two tasks, the count is back at the id of the first, so
    that a third creation is given the id of the second task, which is still
    stored: its four resources are overwritten, and a read of the second
    task returns the third payload. *)
Theorem create_after_delete_reuses_id (w : World) (theme_id : Z) (th : Theme)
    (p1 p2 p3 : TaskCreate * UploadFile) :
  py_index (theme_index (store w)) theme_id = Some th →
  let n := th_count th in
  ∃ w',
    create_after_delete theme_id p1 p2 p3 w
    = (Return (task_of (n + 1) theme_id p1.1, task_of (n + 2) theme_id p2.1,
               task_of (n + 2) theme_id p3.1, task_of (n + 2) theme_id p3.1), w')
    ∧ codes (store w') !! (theme_id, n + 2) = Some p3.2.
Proof.
  intros Ht n. unfold create_after_delete.
  destruct (create_task_world theme_id p1.1 p1.2 w th Ht) as (w1 & H1 & Hf1 & _ & Ht1).
  destruct (create_task_world theme_id p2.1 p2.2 w1 _ Ht1) as (w2 & H2 & Hf2 & _ & Ht2).
  simpl in H2, Hf2, Ht2. fold n in H1, Hf1, H2, Hf2, Ht2.
  replace (n + 1 + 1) with (n + 2) in * by lia.
  assert (stored (store w2) theme_id (n + 1)) as Hst.
  { intros k. rewrite Hf2, lookup_insert_ne by (intros [=]; lia).
    rewrite Hf1, lookup_insert_eq. by eexists. }
  destruct (delete_task_world theme_id (n + 1) w2 _ Ht2 Hst) as (w3 & H3 & Hf3 & _ & Ht3).
  simpl in Ht3. replace (n + 2 - 1) with (n + 1) in Ht3 by lia.
  destruct (create_task_world theme_id p3.1 p3.2 w3 _ Ht3) as (w4 & H4 & Hf4 & _ & Ht4).
  simpl in H4, Hf4, Ht4. replace (n + 1 + 1) with (n + 2) in * by lia.
  pose proof (Hf4 task_info) as Hi. pose proof (Hf4 task_input) as Ha.
  pose proof (Hf4 task_output) as Hb. pose proof (Hf4 task_code) as Hc.
  simpl in Hi, Ha, Hb, Hc.
  destruct (read_task_stored theme_id (n + 2) w4 _ _ _ _ Ht4
              ltac:(rewrite Hi; apply lookup_insert_eq)
              ltac:(rewrite Ha; apply lookup_insert_eq)
              ltac:(rewrite Hb; apply lookup_insert_eq)) as (w5 & H5 & Hs5).
  exists w5. unfold bind. rewrite H1. simpl. rewrite H2. simpl. rewrite H3, H4.
  simpl. rewrite H5. split; [reflexivity|].
  rewrite Hs5, Hc. apply lookup_insert_eq.
Qed.

Lemma create_after_delete_reuses_id_witness :
  ∃ w',
    create_after_delete 1 (mkTaskCreate "A" "" [] [], [Byte.x41])
      (mkTaskCreate "B" "" [] [], [Byte.x42]) (mkTaskCreate "C" "" [] [], [Byte.x43])
      (mkWorld storage_ex [])
    = (Return (mkTask 1 1 "A" "" [] [], mkTask 2 1 "B" "" [] [],
               mkTask 2 1 "C" "" [] [], mkTask 2 1 "C" "" [] []), w')
    ∧ codes (store w') !! (1, 2) = Some [Byte.x43].
Proof.
  exact (create_after_delete_reuses_id (mkWorld storage_ex []) 1 (mkTheme 1 0)
           (mkTaskCreate "A" "" [] [], [Byte.x41])
           (mkTaskCreate "B" "" [] [], [Byte.x42])
           (mkTaskCreate "C" "" [] [], [Byte.x43]) eq_refl).
Defined.



Lemma or_else_str_idem x y : or_else_str x (or_else_str x y) = or_else_str x y.
Proof. destruct x as [s|]; [|done]. simpl. by destruct (truthy_str s). Qed.

Lemma updated_idem t i task b s :
  updated t i task b (updated t i task b s) = updated t i task b s.
Proof.
  apply storage_eq; [done|]. intros k. unfold updated.
  destruct k; simpl.
  - destruct (has_info task); [|done].
    destruct (infos s !! (t, i)) as [d|] eqn:Hd; [|by rewrite Hd].
    rewrite lookup_insert_eq, insert_insert_eq. unfold overlay. simpl.
    by rewrite !or_else_str_idem.
  - destruct (has_input task); [|done]. apply insert_insert_eq.
  - destruct (has_output task); [|done]. apply insert_insert_eq.
  - destruct (truthy_list b); [|done]. apply insert_insert_eq.
Qed.

(** X8: an update is idempotent on the storage: sending the same request a
    second time, whatever the first one did, leaves the storage as the
    first one left it. *)
Theorem update_task_idempotent (w : World) (theme_id task_id : Z)
    (task : TaskUpdate) (code : option UploadFile) :
  let w1 := (update_task theme_id task_id task code w).2 in
  store (update_task theme_id task_id task code w1).2 = store w1.
Proof.
  intros w1. subst w1. destruct code as [b|]; [|done].
  destruct (py_index (theme_index (store w)) theme_id) as [th|] eqn:Ht.
  - assert (∀ v, theme_index (store v) = theme_index (store w) →
                 store (update_task theme_id task_id task (Some b) v).2
                 = if no_field task && negb (truthy_list b) then store v
                   else if has_info task then
                     match infos (store v) !! (theme_id, task_id) with
                     | None => store v
                     | Some _ => updated theme_id task_id task b (store v)
                     end
                   else updated theme_id task_id task b (store v)) as H.
    { intros v Hv. rewrite (update_task_valid _ _ _ _ v th) by (by rewrite Hv).
      cbv zeta. destruct (no_field task && negb (truthy_list b)); [done|].
      destruct (has_info task); [|done].
      by destruct (infos (store v) !! (theme_id, task_id)). }
    rewrite (H (update_task theme_id task_id task (Some b) w).2);
      rewrite (H w eq_refl).
    + destruct (no_field task && negb (truthy_list b)); [done|].
      destruct (has_info task) eqn:Hi; [|apply updated_idem].
      destruct (infos (store w) !! (theme_id, task_id)) as [d|] eqn:Hd;
        [|by rewrite Hd].
      unfold updated at 1. cbn [infos]. rewrite Hi, Hd, lookup_insert_eq.
      apply updated_idem.
    + destruct (no_field task && negb (truthy_list b)); [done|].
      destruct (has_info task); [|done].
      by destruct (infos (store w) !! (theme_id, task_id)).
  - assert (∀ v, store v = store w →
                 store (update_task theme_id task_id task (Some b) v).2 = store w) as H.
    { intros v Hv. rewrite update_task_invalid by (by rewrite Hv).
      destruct (no_field task && negb (truthy_list b)); [done|].
      by destruct (has_info task), (has_input task), (has_output task). }
    rewrite (H (update_task theme_id task_id task (Some b) w).2); by rewrite H.
Qed.

(** X9: an update neither creates nor removes an info resource, and removes
    no resource of any kind: the tasks that have an info are the same
    before and after, and an input, output or code that was stored is still
    stored. *)
Theorem update_task_keeps_tasks (w : World) (theme_id task_id : Z)
    (task : TaskUpdate) (code : option UploadFile) :
  let s' := store (update_task theme_id task_id task code w).2 in
  ∀ j, (is_Some (infos s' !! j) ↔ is_Some (infos (store w) !! j))
       ∧ (is_Some (inputs (store w) !! j) → is_Some (inputs s' !! j))
       ∧ (is_Some (outputs (store w) !! j) → is_Some (outputs s' !! j))
       ∧ (is_Some (codes (store w) !! j) → is_Some (codes s' !! j)).
Proof.
  intros s' j. subst s'.
  destruct (update_task_outcome theme_id task_id task code w)
    as [(b & _ & ->)|(e & cs & -> & _)]; [|done].
  unfold updated. simpl.
  split; [|split; [|split]].
  - destruct (has_info task); [|done].
    destruct (infos (store w) !! (theme_id, task_id)) as [d|] eqn:Hd; [|done].
    destruct (decide (j = (theme_id, task_id))) as [->|Hj].
    + rewrite lookup_insert_eq, Hd. split; by eexists.
    + by rewrite lookup_insert_ne.
  - destruct (has_input task); [|done]. rewrite lookup_insert_is_Some'. auto.
  - destruct (has_output task); [|done]. rewrite lookup_insert_is_Some'. auto.
  - destruct (truthy_list b); [|done]. rewrite lookup_insert_is_Some'. auto.
Qed.

(** X10: a read, a creation and a deletion let no Python exception through:
    each ends in its response or in an HTTPException 404, whatever the
    storage and the identifiers are. *)
Theorem handlers_answer_or_404 (w : World) (theme_id task_id : Z)
    (task : TaskCreate) (code : UploadFile) :
  answers_or_404 (read_task theme_id task_id w).1
  ∧ answers_or_404 (create_task theme_id task code w).1
  ∧ answers_or_404 (delete_task task_id theme_id w).1.
Proof.
  destruct (py_index (theme_index (store w)) theme_id) as [th|] eqn:Ht.
  - split; [|split].
    + rewrite read_task_eq. cbv zeta. rewrite Ht.
      by destruct (infos (store w) !! (theme_id, task_id)),
        (inputs (store w) !! (theme_id, task_id)),
        (outputs (store w) !! (theme_id, task_id)).
    + by destruct (create_task_world theme_id task code w th Ht) as (w' & -> & _).
    + rewrite (delete_task_valid _ _ _ th Ht). cbv zeta.
      destruct (py_setitem_is_Some _ _ (mkTheme (th_id th) (th_count th - 1)) _ Ht)
        as [themes ->].
      by destruct (infos (store w) !! (theme_id, task_id)),
        (inputs (store w) !! (theme_id, task_id)),
        (outputs (store w) !! (theme_id, task_id)),
        (codes (store w) !! (theme_id, task_id)).
  - split; [|split].
    + rewrite read_task_eq. cbv zeta. by rewrite Ht.
    + by rewrite (create_task_invalid _ _ _ _ Ht).
    + by rewrite (delete_task_invalid _ _ _ Ht).
Qed.

(** X11: the Python exceptions an update lets through. It ends on an
    AttributeError exactly when the request has no code upload, and on an
    IndexError exactly when the theme_id is out of the range of the index
    and the request, with an upload, has no title or description that is
    not empty but an input or an output that is not; it never ends on a
    FileNotFoundError. *)
Theorem update_task_uncaught (w : World) (theme_id task_id : Z)
    (task : TaskUpdate) (code : option UploadFile) :
  let r := (update_task theme_id task_id task code w).1 in
  (r = Raise AttributeError ↔ code = None)
  ∧ (r = Raise IndexError ↔
       is_Some code
       ∧ py_index (theme_index (store w)) theme_id = None
       ∧ has_info task = false
       ∧ (has_input task = true ∨ has_output task = true))
  ∧ r ≠ Raise FileNotFoundError.
Proof.
  intros r. subst r. destruct code as [b|].
  2:{ simpl. split; [done|]. split; [|done].
      split; [done|]. by intros [[? [=]] _]. }
  assert (no_field task = true → has_info task = false
          ∧ has_input task = false ∧ has_output task = false) as Hnf.
  { unfold no_field, has_info, has_input, has_output.
    destruct (truthy_opt truthy_str (u_title task)),
      (truthy_opt truthy_str (u_description task)),
      (truthy_opt truthy_list (u_input task)),
      (truthy_opt truthy_list (u_output task)); done. }
  destruct (py_index (theme_index (store w)) theme_id) as [th|] eqn:Ht.
  - rewrite (update_task_valid _ _ _ _ _ th Ht). cbv zeta.
    destruct (no_field task && negb (truthy_list b)), (has_info task),
      (infos (store w) !! (theme_id, task_id)); simpl;
      (split; [done|]); (split; [|done]); (split; [done|]); by intros (_ & [=] & _).
  - rewrite (update_task_invalid _ _ _ _ _ Ht).
    destruct (no_field task && negb (truthy_list b)) eqn:Hn.
    { apply andb_true_iff in Hn as [Hn _]. destruct (Hnf Hn) as (_ & H2 & H3).
      simpl. split; [done|]. split; [|done]. split; [done|].
      rewrite H2, H3. by intros (_ & _ & _ & [|]). }
    destruct (has_info task), (has_input task) eqn:Hi, (has_output task) eqn:Ho; simpl;
      (split; [done|]); (split; [|done]); split; try done; eauto 6.
    all: by intros (_ & _ & ? & [|]).
Qed.

(** Successive creations in a theme of the index, by the storage they
    leave: the tasks whose id is at most the former count are not touched,
    and each task created reads back. *)
Lemma create_tasks_world t payloads : ∀ w th,
  py_index (theme_index (store w)) t = Some th →
  ∃ w',
    create_tasks t payloads w = (Return (created (th_count th) t payloads), w')
    ∧ is_Some (py_index (theme_index (store w')) t)
    ∧ (∀ k i, i ≤ th_count th → files k (store w') !! (t, i) = files k (store w) !! (t, i))
    ∧ (∀ x, x ∈ created (th_count th) t payloads →
            (read_task t (t_id x) w').1 = Return x).
Proof.
  induction payloads as [|[task code] rest IH]; intros w th Ht.
  - exists w. split; [done|]. split; [by eexists|]. split; [done|].
    intros x Hx. by apply elem_of_nil in Hx.
  - destruct (create_task_world t task code w th Ht) as (w1 & Hc & Hf & _ & Ht1).
    destruct (IH w1 _ Ht1) as (w' & Hr & Hv & Hfr & Hrd). simpl in Hr, Hfr, Hrd.
    exists w'. split; [|split; [exact Hv|split]].
    + simpl. unfold bind at 1. rewrite Hc. unfold bind at 1. by rewrite Hr.
    + intros k i Hi. rewrite Hfr by lia. rewrite Hf.
      apply lookup_insert_ne. intros [=]. lia.
    + intros x Hx. simpl in Hx. apply elem_of_cons in Hx as [->|Hx]; [|by apply Hrd].
      simpl. rewrite read_task_eq. cbv zeta. destruct Hv as [th' ->].
      pose proof (Hfr task_info (th_count th + 1) ltac:(lia)) as Hi.
      pose proof (Hfr task_input (th_count th + 1) ltac:(lia)) as Ha.
      pose proof (Hfr task_output (th_count th + 1) ltac:(lia)) as Hb.
      simpl in Hi, Ha, Hb. rewrite Hi, Ha, Hb.
      pose proof (Hf task_info) as Hi1. pose proof (Hf task_input) as Ha1.
      pose proof (Hf task_output) as Hb1. simpl in Hi1, Ha1, Hb1.
      by rewrite Hi1, Ha1, Hb1, !lookup_insert_eq.
Qed.

(** X12: after any number of successive creations in a theme of the index,
    every task that was created reads back as the task its creation
    returned, and the tasks the theme had before (ids up to the former
    count) are untouched. *)
Theorem create_tasks_then_read (w : World) (theme_id : Z) (th : Theme)
    (payloads : list (TaskCreate * UploadFile)) :
  py_index (theme_index (store w)) theme_id = Some th →
  ∃ ts w',
    create_tasks theme_id payloads w = (Return ts, w')
    ∧ length ts = length payloads
    ∧ (∀ x, x ∈ ts → (read_task theme_id (t_id x) w').1 = Return x)
    ∧ (∀ k i, i ≤ th_count th →
              files k (store w') !! (theme_id, i) = files k (store w) !! (theme_id, i)).
Proof.
  intros Ht.
  destruct (create_tasks_world theme_id payloads w th Ht) as (w' & Hr & _ & Hfr & Hrd).
  exists (created (th_count th) theme_id payloads), w'.
  split; [done|]. split; [|by split].
  clear. generalize (th_count th). induction payloads as [|[task code] rest IH]; intros n;
    simpl; [done|]. by rewrite IH.
Qed.

Lemma create_tasks_then_read_witness :
  ∃ ts w',
    create_tasks 1 [(mkTaskCreate "A" "" [VInt 1] [VInt 2], [Byte.x41]);
                    (mkTaskCreate "B" "" [] [], [])] (mkWorld storage_ex [])
    = (Return ts, w')
    ∧ length ts = 2%nat
    ∧ (∀ x, x ∈ ts → (read_task 1 (t_id x) w').1 = Return x)
    ∧ (∀ k i, i ≤ 0 → files k (store w') !! (1, i) = files k storage_ex !! (1, i)).
Proof.
  exact (create_tasks_then_read (mkWorld storage_ex []) 1 (mkTheme 1 0)
           [(mkTaskCreate "A" "" [VInt 1] [VInt 2], [Byte.x41]);
            (mkTaskCreate "B" "" [] [], [])] eq_refl).
Defined.

(** X13: an update that carries an input that is not empty, and no title or
    description that is, saves the input without looking the task up: under
    a theme of the index it succeeds whether or not the task exists, and
    the input resource of (theme_id, task_id) is then the list supplied. *)
Theorem update_task_input_needs_no_task (w : World) (theme_id task_id : Z)
    (th : Theme) (task : TaskUpdate) (b : UploadFile) :
  py_index (theme_index (store w)) theme_id = Some th →
  has_info task = false → has_input task = true →
  (update_task theme_id task_id task (Some b) w).1
  = Return (with_ids (Some task_id) (Some theme_id) task)
  ∧ inputs (store (update_task theme_id task_id task (Some b) w).2) !! (theme_id, task_id)
    = u_input task
  ∧ infos (store (update_task theme_id task_id task (Some b) w).2)
    = infos (store w).
Proof.
  intros Ht Hi Hn. rewrite (update_task_valid _ _ _ _ _ th Ht). cbv zeta.
  unfold no_field. fold (has_info task) (has_input task). rewrite Hi, Hn. simpl.
  split; [done|]. unfold updated. simpl. rewrite Hi, Hn, lookup_insert_eq.
  split; [|done]. unfold has_input in Hn. by destruct (u_input task).
Qed.

Lemma update_task_input_needs_no_task_witness :
  let task := mkTaskUpdate None None None None (Some [VInt 3]) None in
  never_created storage_ex 1 7
  ∧ (update_task 1 7 task (Some []) (mkWorld storage_ex [])).1
    = Return (with_ids (Some 7) (Some 1) task)
  ∧ inputs (store (update_task 1 7 task (Some []) (mkWorld storage_ex [])).2) !! (1, 7)
    = Some [VInt 3]
  ∧ infos (store (update_task 1 7 task (Some []) (mkWorld storage_ex [])).2) = ∅.
Proof.
  intros task. split; [intros []; reflexivity|].
  exact (update_task_input_needs_no_task (mkWorld storage_ex []) 1 7 (mkTheme 1 0)
           task [] eq_refl eq_refl eq_refl).
Defined.

(** X14: an update that raises has written nothing. Its only read comes
    before its first write and, once that read has passed, no write of the
    same call fails, so that the storage after a failed update is the
    storage before it. *)
Theorem update_task_raise_writes_nothing (w : World) (theme_id task_id : Z)
    (task : TaskUpdate) (code : option UploadFile) (e : exn) :
  (update_task theme_id task_id task code w).1 = Raise e →
  store (update_task theme_id task_id task code w).2 = store w
  ∧ ∃ cs, calls (update_task theme_id task_id task code w).2 = calls w ++ cs
          ∧ (length cs ≤ 1)%nat.
Proof.
  destruct code as [b|].
  - destruct (py_index (theme_index (store w)) theme_id) as [th|] eqn:Ht.
    + rewrite (update_task_valid _ _ _ _ _ th Ht). cbv zeta.
      destruct (no_field task && negb (truthy_list b)).
      { intros _. split; [done|]. exists []. split; [by rewrite app_nil_r|simpl; lia]. }
      destruct (has_info task); [|by intros [=]].
      destruct (infos (store w) !! (theme_id, task_id)); [by intros [=]|].
      intros _. split; [done|]. eexists [_]; split; [reflexivity|simpl; lia].
    + rewrite (update_task_invalid _ _ _ _ _ Ht).
      destruct (no_field task && negb (truthy_list b)).
      { intros _. split; [done|]. exists []. split; [by rewrite app_nil_r|simpl; lia]. }
      destruct (has_info task), (has_input task), (has_output task);
        intros _; (split; [done|]); eexists [_]; (split; [reflexivity|simpl; lia]).
  - intros _. split; [done|]. exists []. split; [by rewrite app_nil_r|simpl; lia].
Qed.

Lemma update_task_raise_writes_nothing_witness :
  let task := mkTaskUpdate None None (Some "B") None (Some [VInt 3]) None in
  let res := update_task 1 7 task (Some [Byte.x41]) (mkWorld storage_ex []) in
  res.1 = Raise (HTTPException 404 NotFoundTask) ∧ store res.2 = storage_ex.
Proof.
  intros task res.
  assert (res.1 = Raise (HTTPException 404 NotFoundTask)) as H by reflexivity.
  split; [exact H|].
  exact (proj1 (update_task_raise_writes_nothing (mkWorld storage_ex []) 1 7 task
                  (Some [Byte.x41]) _ H)).
Defined.
